(** * slack-server: the Slack event relay of [main.go]

    A shallow embedding of the HTTP handler [handleSlackEvents] and of
    [main], with the Go runtime (encoding/json, net/url, the HTTP client,
    the listener, the process environment) as an explicit interface, and
    the properties of the relay proved over every behaviour of that
    interface. *)

From Stdlib Require Import ZArith String List Bool.
From stdpp Require Import gmap strings.

Open Scope Z_scope.
Open Scope string_scope.
Open Scope list_scope.

(** ** Data model (main.go, lines 22-46) *)

(** [APIRequestBody]: the body sent to the downstream API. *)
Record APIRequestBody := mkAPIRequestBody {
  THREAD_ID : string;
  CHANNEL_ID : string;
  USER_ID : string;
  QUERY : string
}.

(** [SlackMessageEvent]; the Go field [Type] (json "type") is [EvType]
    here, [Type] being a keyword. *)
Record SlackMessageEvent := mkSlackMessageEvent {
  EvType : string;        (* json "type" *)
  Text : string;          (* json "text" *)
  ChannelID : string;     (* json "channel" *)
  ThreadTS : string;      (* json "thread_ts,omitempty" *)
  TS : string;            (* json "ts" *)
  User : string;          (* json "user" *)
  ChannelType : string;   (* json "channel_type" *)
  BotID : string          (* json "bot_id" *)
}.

(** [SlackEventPayload]; the Go field [Type] is [Type_]. *)
Record SlackEventPayload := mkSlackEventPayload {
  Type_ : string;         (* json "type" *)
  Challenge : string;     (* json "challenge" *)
  Event : SlackMessageEvent
}.

(** ** The parts of the Go library the handler touches *)

(** An [io.Reader] is represented by what reading it to the end gives:
    all of its data, or an error after some of it. *)
Inductive Reader :=
| Reads (data : string)
| Fails (partial : string).

(** [io.ReadAll]: the data and a nil error ([Some]), or an error ([None]). *)
Definition io_ReadAll (r : Reader) : option string :=
  match r with
  | Reads data => Some data
  | Fails _ => None
  end.

(** [bytes.NewBuffer]: a reader over a byte slice; reading it cannot fail. *)
Definition bytes_NewBuffer (b : string) : Reader := Reads b.

(** [http.Request], inbound and outbound. A header is a map from a key to
    its values; every key the program uses is already in canonical form. *)
Record Request := mkRequest {
  Method : string;
  URL : string;
  Header : gmap string (list string);
  Body : Reader
}.

(** [http.Response]: what the program reads of it. *)
Record Response := mkResponse {
  StatusCode : Z;
  RespBody : Reader
}.

Definition MethodPost : string := "POST".
Definition StatusOK : Z := 200.
Definition StatusBadRequest : Z := 400.
Definition StatusMethodNotAllowed : Z := 405.
Definition StatusInternalServerError : Z := 500.

(** [http.Header.Set]: the key gets exactly this one value. *)
Definition Header_Set (key value : string) (h : gmap string (list string))
  : gmap string (list string) :=
  <[key := [value]]> h.

(** The behaviour of the world outside the program: the JSON codec, URL
    parsing and the network. Each field is the result of the Go call of
    the same name, [None] standing for a non-nil error. *)
Class World := {
  (** [json.Unmarshal(data, &payload)] into a zero [SlackEventPayload]. *)
  json_Unmarshal : string -> option SlackEventPayload;
  (** [json.Marshal(apiBody)]. *)
  json_Marshal : APIRequestBody -> option string;
  (** the JSON text of a [map[string]string]; [Encoder.Encode] writes it
      followed by a newline, and the program ignores its error. *)
  json_MarshalMap : gmap string string -> string;
  (** does [url.Parse] accept the string? *)
  url_Parse : string -> bool;
  (** [client.Do(req)] on the default client: the network's answer. *)
  client_Do : Request -> option Response
}.

(** [http.NewRequest]: fails when the URL does not parse; the request has
    no header yet. (It also rejects a method that is not a token; the only
    method the program passes is the constant POST.) *)
Definition http_NewRequest `{World} (method url : string) (body : Reader)
  : option Request :=
  if url_Parse url
  then Some {| Method := method; URL := url; Header := ∅; Body := body |}
  else None.

(** ** The response writer and the handler's effects *)

(** [http.ResponseWriter]: the header map, the status once written, and
    the body written so far. *)
Record ResponseWriter := mkResponseWriter {
  rw_Header : gmap string (list string);
  rw_Status : option Z;
  rw_Body : string
}.

(** What a handler does besides writing its response. *)
Inductive Effect :=
| LogPrintf (line : string)       (* log.Printf *)
| ClientDo (req : Request)        (* client.Do: the downstream call *)
| BodyClose.                      (* resp.Body.Close() *)

(** The state a handler runs in: its writer, its effects so far (oldest
    first) and its deferred calls (latest first). *)
Record HandlerState := mkHandlerState {
  w : ResponseWriter;
  effects : list Effect;
  deferred : list Effect
}.

(** A handler computation: a result, or [None] once the handler has
    executed [return]. *)
Definition Handler (A : Type) : Type := HandlerState -> option A * HandlerState.

Definition ret {A} (a : A) : Handler A := fun st => (Some a, st).

Definition bind {A B} (m : Handler A) (k : A -> Handler B) : Handler B :=
  fun st =>
    match m st with
    | (Some a, st') => k a st'
    | (None, st') => (None, st')
    end.

(** The Go statement [return] in the handler's body. *)
Definition Return {A} : Handler A := fun st => (None, st).

Declare Scope handler_scope.
Delimit Scope handler_scope with handler.
Notation "x <- m ;; k" := (bind m (fun x => k))
  (at level 100, m at next level, right associativity) : handler_scope.
Notation "m ;; k" := (bind m (fun _ => k))
  (at level 100, right associativity) : handler_scope.
Open Scope handler_scope.

Definition modify_w (f : ResponseWriter -> ResponseWriter) : Handler unit :=
  fun st => (Some tt, {| w := f (w st); effects := effects st; deferred := deferred st |}).

Definition emit (e : Effect) : Handler unit :=
  fun st => (Some tt, {| w := w st; effects := effects st ++ [e]; deferred := deferred st |}).

(** [defer f()]. *)
Definition defer (e : Effect) : Handler unit :=
  fun st => (Some tt, {| w := w st; effects := effects st; deferred := e :: deferred st |}).

(** [w.Header().Set(key, value)]. *)
Definition w_Header_Set (key value : string) : Handler unit :=
  modify_w (fun rw => {| rw_Header := Header_Set key value (rw_Header rw);
                         rw_Status := rw_Status rw; rw_Body := rw_Body rw |}).

(** [w.WriteHeader(code)]: only the first call sets the status. *)
Definition rw_WriteHeader (code : Z) (rw : ResponseWriter) : ResponseWriter :=
  match rw_Status rw with
  | Some _ => rw
  | None => {| rw_Header := rw_Header rw; rw_Status := Some code; rw_Body := rw_Body rw |}
  end.

(** [w.Write(data)]: writes the header with status 200 if none was
    written, then appends the data. *)
Definition rw_Write (data : string) (rw : ResponseWriter) : ResponseWriter :=
  let rw := rw_WriteHeader StatusOK rw in
  {| rw_Header := rw_Header rw; rw_Status := rw_Status rw; rw_Body := rw_Body rw +:+ data |}.

Definition w_WriteHeader (code : Z) : Handler unit := modify_w (rw_WriteHeader code).
Definition w_Write (data : string) : Handler unit := modify_w (rw_Write data).

Definition newline : string := String (Ascii.ascii_of_nat 10) "".

(** [http.Error(w, error, code)]. *)
Definition http_Error (error : string) (code : Z) : Handler unit :=
  w_Header_Set "Content-Type" "text/plain; charset=utf-8" ;;
  w_Header_Set "X-Content-Type-Options" "nosniff" ;;
  w_WriteHeader code ;;
  w_Write (error +:+ newline).

(** [json.NewEncoder(w).Encode(m)] for a [map[string]string]. *)
Definition json_Encoder_Encode `{World} (m : gmap string string) : Handler unit :=
  w_Write (json_MarshalMap m +:+ newline).

(** [log.Printf(prefix + "%s", s)]. *)
Definition log_Printf (line : string) : Handler unit := emit (LogPrintf line).

(** [client.Do(req)] as an effect: the call is recorded and the world
    answers. *)
Definition do_request `{World} (req : Request) : Handler (option Response) :=
  emit (ClientDo req) ;; ret (client_Do req).

(** [req.Header.Set(key, value)]. *)
Definition req_Header_Set (key value : string) (req : Request) : Request :=
  {| Method := Method req; URL := URL req;
     Header := Header_Set key value (Header req); Body := Body req |}.

(** ** The handler (main.go, lines 70-158) *)

Definition set_THREAD_ID (v : string) (b : APIRequestBody) : APIRequestBody :=
  {| THREAD_ID := v; CHANNEL_ID := CHANNEL_ID b; USER_ID := USER_ID b; QUERY := QUERY b |}.

(** The condition of line 101. *)
Definition forwards (payload : SlackEventPayload) : bool :=
  (Type_ payload =? "event_callback") &&
  ((EvType (Event payload) =? "app_mention") ||
   ((ChannelType (Event payload) =? "im") &&
    (EvType (Event payload) =? "message") &&
    (BotID (Event payload) =? ""))).

(** Lines 103-117: the body built for the downstream API. *)
Definition apiBodyOf (payload : SlackEventPayload) : APIRequestBody :=
  let apiBody := {| THREAD_ID := ThreadTS (Event payload);
                    CHANNEL_ID := ChannelID (Event payload);
                    USER_ID := User (Event payload);
                    QUERY := Text (Event payload) |} in
  let apiBody := if THREAD_ID apiBody =? ""
                 then set_THREAD_ID (TS (Event payload)) apiBody
                 else apiBody in
  let apiBody := if ChannelType (Event payload) =? "im"
                 then set_THREAD_ID "" apiBody
                 else apiBody in
  apiBody.

Definition handleSlackEvents `{World} (accessToken taskAPI : string) (r : Request)
  : Handler unit :=
  if negb (Method r =? MethodPost) then
    http_Error "Method not allowed" StatusMethodNotAllowed ;;
    Return
  else
  match io_ReadAll (Body r) with
  | None =>
    http_Error "Failed to read request body" StatusInternalServerError ;;
    Return
  | Some rawEventData =>
    log_Printf ("Raw event data: " +:+ rawEventData) ;;
    match json_Unmarshal rawEventData with
    | None =>
      http_Error "Failed to parse request body" StatusBadRequest ;;
      Return
    | Some payload =>
      if Type_ payload =? "url_verification" then
        w_Header_Set "Content-Type" "application/json" ;;
        json_Encoder_Encode {[ "challenge" := Challenge payload ]} ;;
        Return
      else
        (if forwards payload then
           let apiBody := apiBodyOf payload in
           match json_Marshal apiBody with
           | None =>
             http_Error "Failed to create request body" StatusInternalServerError ;;
             Return
           | Some jsonBody =>
             let apiURL := taskAPI in
             match http_NewRequest MethodPost apiURL (bytes_NewBuffer jsonBody) with
             | None =>
               http_Error "Failed to create API request" StatusInternalServerError ;;
               Return
             | Some req =>
               let req := req_Header_Set "Content-Type" "application/json" req in
               let req := req_Header_Set "Cookie" ("obot_access_token=" +:+ accessToken) req in
               resp <- do_request req ;;
               match resp with
               | None =>
                 http_Error "Failed to send request to API" StatusInternalServerError ;;
                 Return
               | Some resp =>
                 match io_ReadAll (RespBody resp) with
                 | None =>
                   http_Error "Failed to read response body" StatusInternalServerError ;;
                   Return
                 | Some respBody =>
                   log_Printf ("Response from API: " +:+ respBody) ;;
                   defer BodyClose
                 end
               end
             end
           end
         else ret tt) ;;
        w_WriteHeader StatusOK
    end
  end.

(** ** Serving one request *)

Definition newResponseWriter : ResponseWriter :=
  {| rw_Header := ∅; rw_Status := None; rw_Body := "" |}.

Definition initialState : HandlerState :=
  {| w := newResponseWriter; effects := []; deferred := [] |}.

(** What the caller and the world see of one request. *)
Record Served := mkServed {
  status : Z;
  header : gmap string (list string);
  body : string;
  trace : list Effect
}.

(** The server runs the handler on a fresh writer; when the handler
    returns, its deferred calls run, and a response whose status was never
    written goes out with status 200. *)
Definition serve (h : Handler unit) : Served :=
  let st := snd (h initialState) in
  {| status := default StatusOK (rw_Status (w st));
     header := rw_Header (w st);
     body := rw_Body (w st);
     trace := effects st ++ deferred st |}.

(** The downstream calls of a trace, in order. *)
Fixpoint downstream (t : list Effect) : list Request :=
  match t with
  | [] => []
  | ClientDo req :: t => req :: downstream t
  | _ :: t => downstream t
  end.

(** An inbound POST carrying [data]. *)
Definition post (data : string) : Request :=
  {| Method := MethodPost; URL := "/slack/events"; Header := ∅; Body := Reads data |}.

(** What the specification calls a qualifying event: an event callback
    that is an app mention, or a message in a direct-message channel with
    no bot id. *)
Definition Qualifying (payload : SlackEventPayload) : Prop :=
  Type_ payload = "event_callback" /\
  (EvType (Event payload) = "app_mention" \/
   (ChannelType (Event payload) = "im" /\
    EvType (Event payload) = "message" /\
    BotID (Event payload) = "")).

(** ** The process (main.go, lines 48-68) *)

(** The host of the process: its environment, and what becomes of the
    listener. [http_ListenAndServe addr] is [Some err] when the call
    returns [err] without having accepted a connection (the address cannot
    be listened on), and [None] when the server accepts connections. *)
Class Host := {
  environ : gmap string string;
  http_ListenAndServe : string -> option string
}.

(** [os.Getenv]: the value, or the empty string when the variable is unset. *)
Definition os_Getenv `{Host} (key : string) : string :=
  default "" (environ !! key).

(** What becomes of the process, with what it printed on standard output:
    [log.Fatal] logs its message and exits with status 1; otherwise the
    server serves the registered routes. *)
Inductive Process :=
| Fatal (msg : string) (stdout : string)
| Serving (addr : string) (routes : list (string * (Request -> Handler unit)))
          (stdout : string).

Definition main `{World} `{Host} : Process :=
  let accessToken := os_Getenv "OBOT_ACCESS_TOKEN" in
  if accessToken =? "" then
    Fatal "OBOT_ACCESS_TOKEN environment variable must be set" ""
  else
    let taskAPI := os_Getenv "TASK_API_URL" in
    let routes := [("/slack/events", handleSlackEvents accessToken taskAPI)] in
    let port := "8088" in
    let port := let envPort := os_Getenv "PORT" in
                if negb (envPort =? "") then envPort else port in
    let stdout := "Server starting on port " +:+ port +:+ "..." +:+ newline in
    match http_ListenAndServe (":" +:+ port) with
    | Some err => Fatal err stdout
    | None => Serving (":" +:+ port) routes stdout
    end.

(** The process ended in [log.Fatal] without having served a request. *)
Definition fatal (p : Process) : bool :=
  match p with
  | Fatal _ _ => true
  | Serving _ _ _ => false
  end.

(** ** Concrete worlds, for running the handler *)

Definition dquote : string := String (Ascii.ascii_of_nat 34) "".

Definition quoted (s : string) : string := dquote +:+ s +:+ dquote.

(** A JSON object of string members, as encoding/json prints it when no
    character of a key or value needs an escape. *)
Fixpoint plainMembers (kvs : list (string * string)) : string :=
  match kvs with
  | [] => ""
  | [(k, v)] => quoted k +:+ ":" +:+ quoted v
  | (k, v) :: kvs => quoted k +:+ ":" +:+ quoted v +:+ "," +:+ plainMembers kvs
  end.

Definition plainObject (kvs : list (string * string)) : string :=
  "{" +:+ plainMembers kvs +:+ "}".

Fixpoint assoc {A} (key : string) (table : list (string * A)) : option A :=
  match table with
  | [] => None
  | (k, a) :: table => if k =? key then Some a else assoc key table
  end.

(** A world given by tables: the bodies that decode and what they decode
    to, the URLs that parse, and the network's answer. *)
Definition tableWorld (bodies : list (string * SlackEventPayload))
    (urls : list string) (network : Request -> option Response) : World :=
  {| json_Unmarshal := fun data => assoc data bodies;
     json_Marshal := fun b =>
       Some (plainObject [("THREAD_ID", THREAD_ID b); ("CHANNEL_ID", CHANNEL_ID b);
                          ("USER_ID", USER_ID b); ("QUERY", QUERY b)]);
     json_MarshalMap := fun m => plainObject (map_to_list m);
     url_Parse := fun u => existsb (String.eqb u) urls;
     client_Do := network |}.

Definition zeroEvent : SlackMessageEvent :=
  {| EvType := ""; Text := ""; ChannelID := ""; ThreadTS := ""; TS := "";
     User := ""; ChannelType := ""; BotID := "" |}.

(** The example of the specification: an app mention outside a thread. *)
Definition mentionEvent : SlackMessageEvent :=
  {| EvType := "app_mention"; Text := "hi"; ChannelID := "C1"; ThreadTS := "";
     TS := "100.1"; User := "U1"; ChannelType := ""; BotID := "" |}.

Definition mentionPayload : SlackEventPayload :=
  {| Type_ := "event_callback"; Challenge := ""; Event := mentionEvent |}.

Definition mentionData : string :=
  "{" +:+ quoted "type" +:+ ":" +:+ quoted "event_callback" +:+ "," +:+
  quoted "event" +:+ ":" +:+
  plainObject [("type", "app_mention"); ("text", "hi"); ("channel", "C1");
               ("ts", "100.1"); ("user", "U1")] +:+ "}".

Definition okNetwork (req : Request) : option Response :=
  Some {| StatusCode := 200; RespBody := Reads "ok" |}.

Definition taskURL : string := "https://tasks.example/run".


(** The other envelopes the handler is run on below. *)
Definition threadMentionPayload : SlackEventPayload :=
  {| Type_ := "event_callback"; Challenge := "";
     Event := {| EvType := "app_mention"; Text := "again"; ChannelID := "C1";
                 ThreadTS := "90.5"; TS := "100.2"; User := "U2";
                 ChannelType := "channel"; BotID := "B7" |} |}.

Definition directPayload : SlackEventPayload :=
  {| Type_ := "event_callback"; Challenge := "";
     Event := {| EvType := "message"; Text := "hello"; ChannelID := "D1";
                 ThreadTS := "90.5"; TS := "100.3"; User := "U1";
                 ChannelType := "im"; BotID := "" |} |}.

Definition botPayload : SlackEventPayload :=
  {| Type_ := "event_callback"; Challenge := "";
     Event := {| EvType := "message"; Text := "echo"; ChannelID := "D1";
                 ThreadTS := ""; TS := "100.4"; User := "U9";
                 ChannelType := "im"; BotID := "B7" |} |}.

Definition challengePayload : SlackEventPayload :=
  {| Type_ := "url_verification"; Challenge := "c0ffee"; Event := zeroEvent |}.

Definition challengePayload' : SlackEventPayload :=
  {| Type_ := "url_verification"; Challenge := "c0ffee"; Event := mentionEvent |}.

(** An envelope printed as JSON, every member present. *)
Definition plainEnvelope (p : SlackEventPayload) : string :=
  "{" +:+ quoted "type" +:+ ":" +:+ quoted (Type_ p) +:+ "," +:+
  quoted "challenge" +:+ ":" +:+ quoted (Challenge p) +:+ "," +:+
  quoted "event" +:+ ":" +:+
  plainObject [("type", EvType (Event p)); ("text", Text (Event p));
               ("channel", ChannelID (Event p)); ("thread_ts", ThreadTS (Event p));
               ("ts", TS (Event p)); ("user", User (Event p));
               ("channel_type", ChannelType (Event p)); ("bot_id", BotID (Event p))]
  +:+ "}".

Definition demoBodies : list (string * SlackEventPayload) :=
  (mentionData, mentionPayload) ::
  map (fun p => (plainEnvelope p, p))
      [threadMentionPayload; directPayload; botPayload; challengePayload;
       challengePayload'].

(** Bodies decode by the table, the task URL parses, the API answers. *)
Definition demoWorld : World := tableWorld demoBodies [taskURL] okNetwork.

(** A task URL that [url.Parse] rejects (no scheme before the colon); it
    is not among the URLs that parse in the worlds here. *)
Definition badURL : string := "://tasks.example/run".

(** The same with an API that cannot be reached. *)
Definition downWorld : World := tableWorld demoBodies [taskURL] (fun _ => None).

(** The same with an API whose answer breaks off. *)
Definition brokenWorld : World :=
  tableWorld demoBodies [taskURL]
    (fun _ => Some {| StatusCode := 200; RespBody := Fails "o" |}).

(** An inbound request with another method. *)
Definition get (data : string) : Request :=
  {| Method := "GET"; URL := "/slack/events"; Header := ∅; Body := Reads data |}.

(** A host with the token and the task URL set, whose port is free. *)
Definition demoHost : Host :=
  {| environ := {[ "OBOT_ACCESS_TOKEN" := "secret"; "TASK_API_URL" := taskURL ]};
     http_ListenAndServe := fun _ => None |}.

(** A host with the token set and no task URL. *)
Definition noURLHost : Host :=
  {| environ := {[ "OBOT_ACCESS_TOKEN" := "secret" ]};
     http_ListenAndServe := fun _ => None |}.

(** A host with the token set, whose PORT names no port. *)
Definition badPortHost : Host :=
  {| environ := {[ "OBOT_ACCESS_TOKEN" := "secret"; "PORT" := "http?" ]};
     http_ListenAndServe := fun addr =>
       if addr =? ":8088" then None else Some "listen tcp: unknown port" |}.

(** ** Vocabulary of the properties *)

(** The downstream calls made while serving. *)
Definition calls (s : Served) : list Request := downstream (trace s).

(** The request the handler sends for a serialized body. *)
Definition outbound (accessToken taskAPI jsonBody : string) : Request :=
  {| Method := MethodPost; URL := taskAPI;
     Header := Header_Set "Cookie" ("obot_access_token=" +:+ accessToken)
                 (Header_Set "Content-Type" "application/json" ∅);
     Body := Reads jsonBody |}.

(** What [http.Error] leaves of a fresh response. *)
Definition errorResponse (msg : string) (code : Z) (t : list Effect) : Served :=
  {| status := code;
     header := Header_Set "X-Content-Type-Options" "nosniff"
                 (Header_Set "Content-Type" "text/plain; charset=utf-8" ∅);
     body := msg +:+ newline;
     trace := t |}.

(** The handler performs a downstream POST while serving: it calls
    [client.Do] on a request. *)
Definition posts (s : Served) : Prop := calls s <> [].

(** The address [main] listens on. *)
Definition listenAddr `{Host} : string :=
  ":" +:+ (if os_Getenv "PORT" =? "" then "8088" else os_Getenv "PORT").

(** ** The runs of the handler *)

(** The first line the handler logs. *)
Definition rawLog (data : string) : Effect :=
  LogPrintf ("Raw event data: " +:+ data).

(** A bare 200 with the given trace. *)
Definition bareOK (t : list Effect) : Served :=
  {| status := StatusOK; header := ∅; body := ""; trace := t |}.

(** The ten ways through the handler, each with the condition that selects
    it and with what is served on it. *)
Inductive Outcome `{World} (accessToken taskAPI : string) (r : Request)
  : Served -> Prop :=
| NotPost :
    Method r <> MethodPost ->
    Outcome accessToken taskAPI r
      (errorResponse "Method not allowed" StatusMethodNotAllowed [])
| Unreadable :
    Method r = MethodPost ->
    io_ReadAll (Body r) = None ->
    Outcome accessToken taskAPI r
      (errorResponse "Failed to read request body" StatusInternalServerError [])
| Malformed data :
    Method r = MethodPost ->
    io_ReadAll (Body r) = Some data ->
    json_Unmarshal data = None ->
    Outcome accessToken taskAPI r
      (errorResponse "Failed to parse request body" StatusBadRequest [rawLog data])
| Verified data payload :
    Method r = MethodPost ->
    io_ReadAll (Body r) = Some data ->
    json_Unmarshal data = Some payload ->
    Type_ payload = "url_verification" ->
    Outcome accessToken taskAPI r
      {| status := StatusOK;
         header := Header_Set "Content-Type" "application/json" ∅;
         body := json_MarshalMap {[ "challenge" := Challenge payload ]} +:+ newline;
         trace := [rawLog data] |}
| Ignored data payload :
    Method r = MethodPost ->
    io_ReadAll (Body r) = Some data ->
    json_Unmarshal data = Some payload ->
    Type_ payload <> "url_verification" ->
    ~ Qualifying payload ->
    Outcome accessToken taskAPI r (bareOK [rawLog data])
| Unserializable data payload :
    Method r = MethodPost ->
    io_ReadAll (Body r) = Some data ->
    json_Unmarshal data = Some payload ->
    Qualifying payload ->
    json_Marshal (apiBodyOf payload) = None ->
    Outcome accessToken taskAPI r
      (errorResponse "Failed to create request body" StatusInternalServerError
         [rawLog data])
| Unbuildable data payload jsonBody :
    Method r = MethodPost ->
    io_ReadAll (Body r) = Some data ->
    json_Unmarshal data = Some payload ->
    Qualifying payload ->
    json_Marshal (apiBodyOf payload) = Some jsonBody ->
    url_Parse taskAPI = false ->
    Outcome accessToken taskAPI r
      (errorResponse "Failed to create API request" StatusInternalServerError
         [rawLog data])
| Unsent data payload jsonBody :
    Method r = MethodPost ->
    io_ReadAll (Body r) = Some data ->
    json_Unmarshal data = Some payload ->
    Qualifying payload ->
    json_Marshal (apiBodyOf payload) = Some jsonBody ->
    url_Parse taskAPI = true ->
    client_Do (outbound accessToken taskAPI jsonBody) = None ->
    Outcome accessToken taskAPI r
      (errorResponse "Failed to send request to API" StatusInternalServerError
         [rawLog data; ClientDo (outbound accessToken taskAPI jsonBody)])
| Unanswered data payload jsonBody resp :
    Method r = MethodPost ->
    io_ReadAll (Body r) = Some data ->
    json_Unmarshal data = Some payload ->
    Qualifying payload ->
    json_Marshal (apiBodyOf payload) = Some jsonBody ->
    url_Parse taskAPI = true ->
    client_Do (outbound accessToken taskAPI jsonBody) = Some resp ->
    io_ReadAll (RespBody resp) = None ->
    Outcome accessToken taskAPI r
      (errorResponse "Failed to read response body" StatusInternalServerError
         [rawLog data; ClientDo (outbound accessToken taskAPI jsonBody)])
| Forwarded data payload jsonBody resp respBody :
    Method r = MethodPost ->
    io_ReadAll (Body r) = Some data ->
    json_Unmarshal data = Some payload ->
    Qualifying payload ->
    json_Marshal (apiBodyOf payload) = Some jsonBody ->
    url_Parse taskAPI = true ->
    client_Do (outbound accessToken taskAPI jsonBody) = Some resp ->
    io_ReadAll (RespBody resp) = Some respBody ->
    Outcome accessToken taskAPI r
      (bareOK [rawLog data; ClientDo (outbound accessToken taskAPI jsonBody);
               LogPrintf ("Response from API: " +:+ respBody); BodyClose]).

(** The messages of the handler's error responses. *)
Definition errorMessages : list string :=
  ["Method not allowed"; "Failed to read request body";
   "Failed to parse request body"; "Failed to create request body";
   "Failed to create API request"; "Failed to send request to API";
   "Failed to read response body"].

(** The header [http.Error] leaves. *)
Definition errorHeader : gmap string (list string) :=
  Header_Set "X-Content-Type-Options" "nosniff"
    (Header_Set "Content-Type" "text/plain; charset=utf-8" ∅).

(** More worlds: an API that refuses the token, and an inbound body that
    breaks off. *)
Definition refusingWorld : World :=
  tableWorld demoBodies [taskURL]
    (fun _ => Some {| StatusCode := 401; RespBody := Reads "unauthorized" |}).

Definition brokenPost : Request :=
  {| Method := MethodPost; URL := "/slack/events"; Header := ∅;
     Body := Fails "{" |}.

(** The same mention, sent to another path with a signature header. *)
Definition signedPost : Request :=
  {| Method := MethodPost; URL := "/elsewhere";
     Header := {[ "X-Slack-Signature" := ["v0=0000"] ]};
     Body := Reads mentionData |}.

(** The port [main] announces and listens on: PORT, or 8088 when PORT is
    unset or empty. *)
Definition listenPort `{Host} : string :=
  if os_Getenv "PORT" =? "" then "8088" else os_Getenv "PORT".

(** The line [main] prints before it listens. *)
Definition startLine `{Host} : string :=
  "Server starting on port " +:+ listenPort +:+ "..." +:+ newline.

(** A host with its own port. *)
Definition portHost : Host :=
  {| environ := {[ "OBOT_ACCESS_TOKEN" := "secret"; "PORT" := "9090" ]};
     http_ListenAndServe := fun _ => None |}.

(** * The server with the slash-command route (the second source file)

    The other source file of the repository is a server of the same shape
    with two routes: /slack/command, which forwards every slash command,
    and /slack/events, which forwards app mentions only. Both send to a
    URL written in the source. It shares [APIRequestBody], the response
    writer, the handler monad and the world with [main.go]. *)

Module CommandServer.

(** [SlackCommandPayload]; its [Text], [ChannelID] and [ThreadTS] are
    prefixed here, the event below having fields of the same names. *)
Record SlackCommandPayload := mkSlackCommandPayload {
  CmdText : string;        (* Text, json "text" *)
  CmdChannelID : string;   (* ChannelID, json "channel_id" *)
  CmdThreadTS : string;    (* ThreadTS, json "thread_ts" *)
  ResponseURL : string;    (* json "response_url" *)
  UserID : string          (* json "user_id" *)
}.

(** [SlackMessageEvent] of this file: no channel type and no bot id. *)
Record SlackMessageEvent := mkSlackMessageEvent {
  EvType : string;        (* json "type" *)
  Text : string;          (* json "text" *)
  ChannelID : string;     (* json "channel" *)
  ThreadTS : string;      (* json "thread_ts,omitempty" *)
  TS : string;            (* json "ts" *)
  User : string           (* json "user" *)
}.

Record SlackEventPayload := mkSlackEventPayload {
  Type_ : string;         (* json "type" *)
  Challenge : string;     (* json "challenge" *)
  Event : SlackMessageEvent
}.

(** What this file asks of the world besides [World]: form parsing and the
    streaming JSON decoder. *)
Class FormWorld := {
  (** [r.ParseForm()]: the form ([r.Form]) of the request, or an error. *)
  r_ParseForm : Request -> option (gmap string (list string));
  (** [json.NewDecoder(body).Decode(&payload)]. *)
  json_Decode : Reader -> option SlackEventPayload
}.

(** [r.FormValue(key)] on a parsed form: the first value of the key, or
    the empty string. *)
Definition r_FormValue (form : gmap string (list string)) (key : string) : string :=
  match form !! key with
  | Some (v :: _) => v
  | _ => ""
  end.

(** The URLs written in the two handlers. *)
Definition commandURL : string :=
  "https://main.acornlabs.com/api/assistants/a1gnhpr/projects/p144lqv/tasks/w126clz/run?step=*".

Definition eventsURL : string :=
  "https://main.acornlabs.com/api/assistants/a1gnhpr/projects/p144lqv/tasks/w1sbtgq/run?step=*".

(** The bytes written to Slack after a command was forwarded: the object
    with the one member response_type, in_channel, a space after its
    colon. *)
Definition inChannel : string :=
  "{" +:+ quoted "response_type" +:+ ": " +:+ quoted "in_channel" +:+ "}".

(** The values taken from the form. *)
Definition slackPayloadOf (form : gmap string (list string)) : SlackCommandPayload :=
  {| CmdText := r_FormValue form "text";
     CmdChannelID := r_FormValue form "channel_id";
     CmdThreadTS := r_FormValue form "thread_ts";
     ResponseURL := "";
     UserID := r_FormValue form "user_id" |}.

(** The body for a command. *)
Definition commandBodyOf (slackPayload : SlackCommandPayload) : APIRequestBody :=
  {| THREAD_ID := CmdThreadTS slackPayload;
     CHANNEL_ID := CmdChannelID slackPayload;
     USER_ID := UserID slackPayload;
     QUERY := CmdText slackPayload |}.

Definition handleSlackCommand `{World} `{FormWorld} (accessToken : string)
    (r : Request) : Handler unit :=
  if negb (Method r =? MethodPost) then
    http_Error "Method not allowed" StatusMethodNotAllowed ;;
    Return
  else
  match r_ParseForm r with
  | None =>
    http_Error "Failed to parse form data" StatusBadRequest ;;
    Return
  | Some form =>
    let slackPayload := slackPayloadOf form in
    let apiBody := commandBodyOf slackPayload in
    match json_Marshal apiBody with
    | None =>
      http_Error "Failed to create request body" StatusInternalServerError ;;
      Return
    | Some jsonBody =>
      let apiURL := commandURL in
      match http_NewRequest MethodPost apiURL (bytes_NewBuffer jsonBody) with
      | None =>
        http_Error "Failed to create API request" StatusInternalServerError ;;
        Return
      | Some req =>
        let req := req_Header_Set "Content-Type" "application/json" req in
        let req := req_Header_Set "Cookie" ("obot_access_token=" +:+ accessToken) req in
        resp <- do_request req ;;
        match resp with
        | None =>
          http_Error "Failed to send request to API" StatusInternalServerError ;;
          Return
        | Some resp =>
          defer BodyClose ;;
          w_Header_Set "Content-Type" "application/json" ;;
          w_Write inChannel
        end
      end
    end
  end.

(** The condition of the events handler of this file. *)
Definition forwards (payload : SlackEventPayload) : bool :=
  (Type_ payload =? "event_callback") && (EvType (Event payload) =? "app_mention").

(** The body for an event: the thread, or the message itself. *)
Definition apiBodyOf (payload : SlackEventPayload) : APIRequestBody :=
  let apiBody := {| THREAD_ID := ThreadTS (Event payload);
                    CHANNEL_ID := ChannelID (Event payload);
                    USER_ID := User (Event payload);
                    QUERY := Text (Event payload) |} in
  let apiBody := if THREAD_ID apiBody =? ""
                 then set_THREAD_ID (TS (Event payload)) apiBody
                 else apiBody in
  apiBody.

Definition handleSlackEvents `{World} `{FormWorld} (accessToken : string)
    (r : Request) : Handler unit :=
  if negb (Method r =? MethodPost) then
    http_Error "Method not allowed" StatusMethodNotAllowed ;;
    Return
  else
  match json_Decode (Body r) with
  | None =>
    http_Error "Failed to parse request body" StatusBadRequest ;;
    Return
  | Some payload =>
    if Type_ payload =? "url_verification" then
      w_Header_Set "Content-Type" "application/json" ;;
      json_Encoder_Encode {[ "challenge" := Challenge payload ]} ;;
      Return
    else
      (if forwards payload then
         let apiBody := apiBodyOf payload in
         match json_Marshal apiBody with
         | None =>
           http_Error "Failed to create request body" StatusInternalServerError ;;
           Return
         | Some jsonBody =>
           let apiURL := eventsURL in
           match http_NewRequest MethodPost apiURL (bytes_NewBuffer jsonBody) with
           | None =>
             http_Error "Failed to create API request" StatusInternalServerError ;;
             Return
           | Some req =>
             let req := req_Header_Set "Content-Type" "application/json" req in
             let req := req_Header_Set "Cookie" ("obot_access_token=" +:+ accessToken) req in
             resp <- do_request req ;;
             match resp with
             | None =>
               http_Error "Failed to send request to API" StatusInternalServerError ;;
               Return
             | Some resp =>
               match io_ReadAll (RespBody resp) with
               | None =>
                 http_Error "Failed to read response body" StatusInternalServerError ;;
                 Return
               | Some respBody =>
                 log_Printf ("Response from API: " +:+ respBody) ;;
                 defer BodyClose
               end
             end
           end
         end
       else ret tt) ;;
      w_WriteHeader StatusOK
  end.

Definition main `{World} `{FormWorld} `{Host} : Process :=
  let accessToken := os_Getenv "OBOT_ACCESS_TOKEN" in
  if accessToken =? "" then
    Fatal "OBOT_ACCESS_TOKEN environment variable must be set" ""
  else
    let routes := [("/slack/command", handleSlackCommand accessToken);
                   ("/slack/events", handleSlackEvents accessToken)] in
    let port := "8088" in
    let port := let envPort := os_Getenv "PORT" in
                if negb (envPort =? "") then envPort else port in
    let stdout := "Server starting on port " +:+ port +:+ "..." +:+ newline in
    match http_ListenAndServe (":" +:+ port) with
    | Some err => Fatal err stdout
    | None => Serving (":" +:+ port) routes stdout
    end.

(** The request a handler of this file sends. *)
Definition outboundTo (url accessToken jsonBody : string) : Request :=
  {| Method := MethodPost; URL := url;
     Header := Header_Set "Cookie" ("obot_access_token=" +:+ accessToken)
                 (Header_Set "Content-Type" "application/json" ∅);
     Body := Reads jsonBody |}.

End CommandServer.

(** The envelope of [main.go] as the second file decodes it: the members
    it has no field for are dropped. *)
Definition dropNewFields (payload : SlackEventPayload)
  : CommandServer.SlackEventPayload :=
  {| CommandServer.Type_ := Type_ payload;
     CommandServer.Challenge := Challenge payload;
     CommandServer.Event :=
       {| CommandServer.EvType := EvType (Event payload);
          CommandServer.Text := Text (Event payload);
          CommandServer.ChannelID := ChannelID (Event payload);
          CommandServer.ThreadTS := ThreadTS (Event payload);
          CommandServer.TS := TS (Event payload);
          CommandServer.User := User (Event payload) |} |}.

(** A world for running the handlers: forms and envelopes by table. *)
Definition commandData : string := "text=deploy&channel_id=C1&user_id=U1".

Definition commandForm : gmap string (list string) :=
  {[ "text" := ["deploy"]; "channel_id" := ["C1"]; "user_id" := ["U1"] ]}.

Definition demoForms : CommandServer.FormWorld :=
  {| CommandServer.r_ParseForm := fun r =>
       match Body r with
       | Reads data => assoc data [(commandData, commandForm)]
       | Fails _ => None
       end;
     CommandServer.json_Decode := fun body =>
       match body with
       | Reads data =>
         assoc data (map (fun '(d, p) => (d, dropNewFields p)) demoBodies)
       | Fails _ => None
       end |}.

(** A world in which every URL parses and the API refuses the token. *)
Definition openWorld : World :=
  {| json_Unmarshal := fun _ => None;
     json_Marshal := fun b =>
       Some (plainObject [("THREAD_ID", THREAD_ID b); ("CHANNEL_ID", CHANNEL_ID b);
                          ("USER_ID", USER_ID b); ("QUERY", QUERY b)]);
     json_MarshalMap := fun m => plainObject (map_to_list m);
     url_Parse := fun _ => true;
     client_Do := fun _ =>
       Some {| StatusCode := 401; RespBody := Reads "unauthorized" |} |}.

(** * Properties *)

Lemma forwards_Qualifying (payload : SlackEventPayload) :
  forwards payload = true <-> Qualifying payload.
Proof.
  unfold forwards, Qualifying.
  rewrite andb_true_iff, orb_true_iff, !andb_true_iff, !String.eqb_eq.
  tauto.
Qed.

Lemma forwards_not_Qualifying (payload : SlackEventPayload) :
  forwards payload = false <-> ~ Qualifying payload.
Proof.
  rewrite <- forwards_Qualifying. destruct (forwards payload); split; congruence.
Qed.

Lemma Qualifying_not_verification (payload : SlackEventPayload) :
  Qualifying payload -> (Type_ payload =? "url_verification") = false.
Proof.
  intros [Hty _]. rewrite Hty. reflexivity.
Qed.

Section Relay.
Context `{W : World} (accessToken taskAPI : string).

(** ** The handler, case by case *)

Lemma serve_not_post (r : Request) :
  Method r <> MethodPost ->
  serve (handleSlackEvents accessToken taskAPI r) =
    errorResponse "Method not allowed" StatusMethodNotAllowed [].
Proof.
  intros Hm. apply String.eqb_neq in Hm.
  unfold serve, handleSlackEvents. rewrite Hm. reflexivity.
Qed.

Lemma serve_unreadable (r : Request) :
  Method r = MethodPost ->
  io_ReadAll (Body r) = None ->
  serve (handleSlackEvents accessToken taskAPI r) =
    errorResponse "Failed to read request body" StatusInternalServerError [].
Proof.
  intros Hm Hread.
  unfold serve, handleSlackEvents. rewrite Hm, String.eqb_refl, Hread. reflexivity.
Qed.

Lemma serve_malformed (r : Request) (data : string) :
  Method r = MethodPost ->
  io_ReadAll (Body r) = Some data ->
  json_Unmarshal data = None ->
  serve (handleSlackEvents accessToken taskAPI r) =
    errorResponse "Failed to parse request body" StatusBadRequest
      [LogPrintf ("Raw event data: " +:+ data)].
Proof.
  intros Hm Hread Hparse.
  unfold serve, handleSlackEvents.
  rewrite Hm, String.eqb_refl, Hread, Hparse. reflexivity.
Qed.

Lemma serve_verification (r : Request) (data : string) (payload : SlackEventPayload) :
  Method r = MethodPost ->
  io_ReadAll (Body r) = Some data ->
  json_Unmarshal data = Some payload ->
  Type_ payload = "url_verification" ->
  serve (handleSlackEvents accessToken taskAPI r) =
    {| status := StatusOK;
       header := Header_Set "Content-Type" "application/json" ∅;
       body := json_MarshalMap {[ "challenge" := Challenge payload ]} +:+ newline;
       trace := [LogPrintf ("Raw event data: " +:+ data)] |}.
Proof.
  intros Hm Hread Hparse Hty.
  unfold serve, handleSlackEvents.
  rewrite Hm, String.eqb_refl, Hread, Hparse, Hty. reflexivity.
Qed.

Lemma serve_ignored (r : Request) (data : string) (payload : SlackEventPayload) :
  Method r = MethodPost ->
  io_ReadAll (Body r) = Some data ->
  json_Unmarshal data = Some payload ->
  (Type_ payload =? "url_verification") = false ->
  forwards payload = false ->
  serve (handleSlackEvents accessToken taskAPI r) =
    {| status := StatusOK; header := ∅; body := "";
       trace := [LogPrintf ("Raw event data: " +:+ data)] |}.
Proof.
  intros Hm Hread Hparse Hty Hfw.
  unfold serve, handleSlackEvents.
  rewrite Hm, String.eqb_refl, Hread, Hparse, Hty, Hfw. reflexivity.
Qed.

Lemma serve_forwarded (r : Request) (data : string) (payload : SlackEventPayload) :
  Method r = MethodPost ->
  io_ReadAll (Body r) = Some data ->
  json_Unmarshal data = Some payload ->
  (Type_ payload =? "url_verification") = false ->
  forwards payload = true ->
  serve (handleSlackEvents accessToken taskAPI r) =
    let logged := LogPrintf ("Raw event data: " +:+ data) in
    match json_Marshal (apiBodyOf payload) with
    | None =>
      errorResponse "Failed to create request body" StatusInternalServerError [logged]
    | Some jsonBody =>
      let req := outbound accessToken taskAPI jsonBody in
      if url_Parse taskAPI then
        match client_Do req with
        | None =>
          errorResponse "Failed to send request to API" StatusInternalServerError
            [logged; ClientDo req]
        | Some resp =>
          match io_ReadAll (RespBody resp) with
          | None =>
            errorResponse "Failed to read response body" StatusInternalServerError
              [logged; ClientDo req]
          | Some respBody =>
            {| status := StatusOK; header := ∅; body := "";
               trace := [logged; ClientDo req;
                         LogPrintf ("Response from API: " +:+ respBody); BodyClose] |}
          end
        end
      else
        errorResponse "Failed to create API request" StatusInternalServerError [logged]
    end.
Proof.
  intros Hm Hread Hparse Hty Hfw.
  unfold serve, handleSlackEvents.
  rewrite Hm, String.eqb_refl, Hread, Hparse, Hty, Hfw.
  destruct (json_Marshal (apiBodyOf payload)) as [jsonBody|]; [|reflexivity].
  unfold http_NewRequest.
  destruct (url_Parse taskAPI); [|reflexivity].
  unfold do_request, bind, emit, ret, log_Printf; cbn -[Header_Set String.append].
  change (req_Header_Set _ _ (req_Header_Set _ _ _))
    with (outbound accessToken taskAPI jsonBody).
  destruct (client_Do (outbound accessToken taskAPI jsonBody)) as [resp|];
    [|reflexivity].
  destruct (io_ReadAll (RespBody resp)); reflexivity.
Qed.

End Relay.

Lemma apiBodyOf_fields (payload : SlackEventPayload) :
  CHANNEL_ID (apiBodyOf payload) = ChannelID (Event payload) /\
  USER_ID (apiBodyOf payload) = User (Event payload) /\
  QUERY (apiBodyOf payload) = Text (Event payload).
Proof.
  unfold apiBodyOf; cbn [THREAD_ID].
  destruct (ThreadTS (Event payload) =? ""), (ChannelType (Event payload) =? "im");
    repeat split.
Qed.

Lemma apiBodyOf_THREAD_ID (payload : SlackEventPayload) :
  (ChannelType (Event payload) = "im" -> THREAD_ID (apiBodyOf payload) = "") /\
  (ChannelType (Event payload) <> "im" -> ThreadTS (Event payload) <> "" ->
   THREAD_ID (apiBodyOf payload) = ThreadTS (Event payload)) /\
  (ChannelType (Event payload) <> "im" -> ThreadTS (Event payload) = "" ->
   THREAD_ID (apiBodyOf payload) = TS (Event payload)).
Proof.
  unfold apiBodyOf; cbn [THREAD_ID].
  destruct (String.eqb_spec (ThreadTS (Event payload)) "") as [Ht|Ht],
           (String.eqb_spec (ChannelType (Event payload)) "im") as [Hc|Hc];
    repeat split; intros; try reflexivity; congruence.
Qed.

Lemma outbound_headers (accessToken taskAPI jsonBody : string) :
  Header (outbound accessToken taskAPI jsonBody) !! "Content-Type"
    = Some ["application/json"] /\
  Header (outbound accessToken taskAPI jsonBody) !! "Cookie"
    = Some ["obot_access_token=" +:+ accessToken].
Proof.
  unfold outbound, Header_Set; cbn [Header]. split.
  - rewrite lookup_insert_ne by discriminate. apply lookup_insert_eq.
  - apply lookup_insert_eq.
Qed.

Section Forwarding.
Context `{W : World} (accessToken taskAPI : string).
Context (r : Request) (data : string) (payload : SlackEventPayload).
Hypothesis Hmethod : Method r = MethodPost.
Hypothesis Hread : io_ReadAll (Body r) = Some data.
Hypothesis Hparse : json_Unmarshal data = Some payload.

(** The calls of a forwarding run: none when the request cannot be built,
    else the one request. *)
Lemma calls_forwarded :
  Qualifying payload ->
  calls (serve (handleSlackEvents accessToken taskAPI r)) =
    match json_Marshal (apiBodyOf payload) with
    | Some jsonBody =>
      if url_Parse taskAPI then [outbound accessToken taskAPI jsonBody] else []
    | None => []
    end.
Proof.
  intros Hq.
  rewrite (serve_forwarded accessToken taskAPI r data payload Hmethod Hread Hparse
             (Qualifying_not_verification _ Hq) (proj2 (forwards_Qualifying _) Hq)).
  cbv zeta.
  destruct (json_Marshal (apiBodyOf payload)) as [jsonBody|]; [|reflexivity].
  destruct (url_Parse taskAPI); [|reflexivity].
  destruct (client_Do _) as [resp|]; [|reflexivity].
  destruct (io_ReadAll (RespBody resp)); reflexivity.
Qed.

(** Without a qualifying event there is no call. *)
Lemma calls_not_forwarded :
  ~ Qualifying payload ->
  calls (serve (handleSlackEvents accessToken taskAPI r)) = [].
Proof.
  intros Hq. apply forwards_not_Qualifying in Hq.
  destruct (Type_ payload =? "url_verification") eqn:Hty.
  - apply String.eqb_eq in Hty.
    rewrite (serve_verification accessToken taskAPI r data payload); auto.
  - rewrite (serve_ignored accessToken taskAPI r data payload); auto.
Qed.

End Forwarding.

(** ** The claims *)

(** C1, as stated, fails: with a task URL that does not parse the request
    is never built, and the qualifying app mention of the specification's
    example is answered with no downstream POST. *)
Lemma C1_counterexample :
  let s := serve (@handleSlackEvents demoWorld "secret" badURL (post mentionData)) in
  Method (post mentionData) = MethodPost /\
  io_ReadAll (Body (post mentionData)) = Some mentionData /\
  @json_Unmarshal demoWorld mentionData = Some mentionPayload /\
  @url_Parse demoWorld badURL = false /\
  Qualifying mentionPayload /\
  calls s = [] /\
  status s = 500 /\
  ~ (posts s <-> Qualifying mentionPayload).
Proof.
  assert (Hq : Qualifying mentionPayload)
    by (split; [reflexivity | left; reflexivity]).
  cbv zeta. repeat (split; [first [reflexivity | exact Hq]|]).
  intros [_ Hposts]. apply (Hposts Hq). reflexivity.
Qed.

(** C1 (amended): for every parsed inbound envelope, the handler performs
    a downstream POST only if the envelope's type is "event_callback" and
    the event is an "app_mention", or a "message" in an "im" channel with
    an empty bot_id; and when the outbound request can be built (the body
    serializes and the configured URL parses) it performs the POST if and
    only if that condition holds. *)
Theorem C1_post_iff_qualifying_when_built `{W : World}
    (accessToken taskAPI : string) (r : Request) (data : string)
    (payload : SlackEventPayload) :
  Method r = MethodPost ->
  io_ReadAll (Body r) = Some data ->
  json_Unmarshal data = Some payload ->
  (posts (serve (handleSlackEvents accessToken taskAPI r)) -> Qualifying payload) /\
  (is_Some (json_Marshal (apiBodyOf payload)) ->
   url_Parse taskAPI = true ->
   (posts (serve (handleSlackEvents accessToken taskAPI r)) <-> Qualifying payload)).
Proof.
  intros Hm Hread Hparse.
  assert (Honly : posts (serve (handleSlackEvents accessToken taskAPI r)) ->
                  Qualifying payload).
  { intros Hposts. apply forwards_Qualifying.
    destruct (forwards payload) eqn:Hfw; [reflexivity|].
    exfalso. apply Hposts.
    apply (calls_not_forwarded accessToken taskAPI r data payload Hm Hread Hparse).
    apply forwards_not_Qualifying, Hfw. }
  split; [exact Honly|].
  intros [jsonBody Hj] Hurl. split; [exact Honly|].
  intros Hq. unfold posts.
  rewrite (calls_forwarded accessToken taskAPI r data payload Hm Hread Hparse Hq),
    Hj, Hurl.
  discriminate.
Qed.

Lemma C1_witness :
  (posts (serve (@handleSlackEvents demoWorld "secret" taskURL (post mentionData)))
   -> Qualifying mentionPayload) /\
  (is_Some (@json_Marshal demoWorld (apiBodyOf mentionPayload)) ->
   @url_Parse demoWorld taskURL = true ->
   (posts (serve (@handleSlackEvents demoWorld "secret" taskURL (post mentionData)))
    <-> Qualifying mentionPayload)).
Proof.
  apply (@C1_post_iff_qualifying_when_built demoWorld "secret" taskURL
           (post mentionData) mentionData mentionPayload); reflexivity.
Defined.

(** C2: for every qualifying event, every request the handler sends
    carries the serialization of a body whose THREAD_ID is empty when the
    event's channel_type is "im", and otherwise is the event's thread_ts
    if that is non-empty and the event's ts if it is empty. *)
Theorem C2_thread_id `{W : World}
    (accessToken taskAPI : string) (r : Request) (data : string)
    (payload : SlackEventPayload) :
  Method r = MethodPost ->
  io_ReadAll (Body r) = Some data ->
  json_Unmarshal data = Some payload ->
  Qualifying payload ->
  forall req, In req (calls (serve (handleSlackEvents accessToken taskAPI r))) ->
  exists (b : APIRequestBody) (jsonBody : string),
    json_Marshal b = Some jsonBody /\
    Body req = Reads jsonBody /\
    (ChannelType (Event payload) = "im" -> THREAD_ID b = "") /\
    (ChannelType (Event payload) <> "im" -> ThreadTS (Event payload) <> "" ->
     THREAD_ID b = ThreadTS (Event payload)) /\
    (ChannelType (Event payload) <> "im" -> ThreadTS (Event payload) = "" ->
     THREAD_ID b = TS (Event payload)).
Proof.
  intros Hm Hread Hparse Hq req Hin.
  rewrite (calls_forwarded accessToken taskAPI r data payload Hm Hread Hparse Hq) in Hin.
  destruct (json_Marshal (apiBodyOf payload)) as [jsonBody|] eqn:Hj; [|destruct Hin].
  destruct (url_Parse taskAPI); [|destruct Hin].
  destruct Hin as [<-|[]].
  exists (apiBodyOf payload), jsonBody.
  split; [exact Hj|]. split; [reflexivity|].
  apply apiBodyOf_THREAD_ID.
Qed.

Lemma C2_witness :
  let req := outbound "secret" taskURL
               (plainObject [("THREAD_ID", ""); ("CHANNEL_ID", "D1");
                             ("USER_ID", "U1"); ("QUERY", "hello")]) in
  In req (calls (serve (@handleSlackEvents demoWorld "secret" taskURL
                          (post (plainEnvelope directPayload))))) /\
  exists (b : APIRequestBody) (jsonBody : string),
    @json_Marshal demoWorld b = Some jsonBody /\
    Body req = Reads jsonBody /\
    (ChannelType (Event directPayload) = "im" -> THREAD_ID b = "") /\
    (ChannelType (Event directPayload) <> "im" -> ThreadTS (Event directPayload) <> "" ->
     THREAD_ID b = ThreadTS (Event directPayload)) /\
    (ChannelType (Event directPayload) <> "im" -> ThreadTS (Event directPayload) = "" ->
     THREAD_ID b = TS (Event directPayload)).
Proof.
  split; [left; reflexivity|].
  apply (@C2_thread_id demoWorld "secret" taskURL
           (post (plainEnvelope directPayload)) (plainEnvelope directPayload)
           directPayload); try reflexivity.
  - split; [reflexivity | right; repeat split].
  - left; reflexivity.
Defined.

(** C3: for every parsed envelope whose type is "url_verification", the
    handler answers with status 200, content type application/json and the
    JSON object whose one member "challenge" is the envelope's challenge
    (as the encoder writes it, a newline after it), makes no downstream
    call, and gives the same answer for any other envelope of that type
    with the same challenge. *)
Theorem C3_url_verification `{W : World}
    (accessToken taskAPI : string) (r : Request) (data : string)
    (payload : SlackEventPayload) :
  Method r = MethodPost ->
  io_ReadAll (Body r) = Some data ->
  json_Unmarshal data = Some payload ->
  Type_ payload = "url_verification" ->
  let s := serve (handleSlackEvents accessToken taskAPI r) in
  status s = 200 /\
  body s = json_MarshalMap {[ "challenge" := Challenge payload ]} +:+ newline /\
  header s !! "Content-Type" = Some ["application/json"] /\
  calls s = [] /\
  forall (r' : Request) (data' : string) (payload' : SlackEventPayload),
    Method r' = MethodPost ->
    io_ReadAll (Body r') = Some data' ->
    json_Unmarshal data' = Some payload' ->
    Type_ payload' = "url_verification" ->
    Challenge payload' = Challenge payload ->
    let s' := serve (handleSlackEvents accessToken taskAPI r') in
    status s' = status s /\ header s' = header s /\ body s' = body s /\
    calls s' = calls s.
Proof.
  intros Hm Hread Hparse Hty s. subst s.
  rewrite (serve_verification accessToken taskAPI r data payload Hm Hread Hparse Hty).
  unfold calls; cbn [status body header trace downstream].
  split; [reflexivity|]. split; [reflexivity|].
  split; [apply lookup_insert_eq|]. split; [reflexivity|].
  intros r' data' payload' Hm' Hread' Hparse' Hty' Hch.
  rewrite (serve_verification accessToken taskAPI r' data' payload' Hm' Hread' Hparse' Hty').
  cbn [status body header trace downstream].
  rewrite Hch. repeat split.
Qed.

Lemma C3_witness :
  let s := serve (@handleSlackEvents demoWorld "secret" taskURL
                    (post (plainEnvelope challengePayload))) in
  let s' := serve (@handleSlackEvents demoWorld "secret" taskURL
                     (post (plainEnvelope challengePayload'))) in
  (status s = 200 /\
   body s = plainObject [("challenge", "c0ffee")] +:+ newline /\
   header s !! "Content-Type" = Some ["application/json"] /\
   calls s = []) /\
  (status s' = status s /\ header s' = header s /\ body s' = body s /\
   calls s' = calls s).
Proof.
  pose proof (@C3_url_verification demoWorld "secret" taskURL
                (post (plainEnvelope challengePayload))
                (plainEnvelope challengePayload) challengePayload
                eq_refl eq_refl eq_refl eq_refl) as H.
  cbv zeta in H. destruct H as (Hs & Hb & Hh & Hc & Hsame).
  split.
  - split; [exact Hs|]. split; [rewrite Hb; reflexivity|].
    split; [exact Hh | exact Hc].
  - apply (Hsame (post (plainEnvelope challengePayload'))
             (plainEnvelope challengePayload') challengePayload');
      reflexivity.
Defined.

(** C4: for every qualifying event, every request the handler sends is a
    POST to the configured URL, with header Content-Type application/json
    and header Cookie obot_access_token=<the configured token>, and its
    body is the serialization of a body whose CHANNEL_ID, USER_ID and QUERY
    are the event's channel, user and text. *)
Theorem C4_downstream_request `{W : World}
    (accessToken taskAPI : string) (r : Request) (data : string)
    (payload : SlackEventPayload) :
  Method r = MethodPost ->
  io_ReadAll (Body r) = Some data ->
  json_Unmarshal data = Some payload ->
  Qualifying payload ->
  forall req, In req (calls (serve (handleSlackEvents accessToken taskAPI r))) ->
  Method req = "POST" /\
  URL req = taskAPI /\
  Header req !! "Content-Type" = Some ["application/json"] /\
  Header req !! "Cookie" = Some ["obot_access_token=" +:+ accessToken] /\
  exists (b : APIRequestBody) (jsonBody : string),
    json_Marshal b = Some jsonBody /\
    Body req = Reads jsonBody /\
    CHANNEL_ID b = ChannelID (Event payload) /\
    USER_ID b = User (Event payload) /\
    QUERY b = Text (Event payload).
Proof.
  intros Hm Hread Hparse Hq req Hin.
  rewrite (calls_forwarded accessToken taskAPI r data payload Hm Hread Hparse Hq) in Hin.
  destruct (json_Marshal (apiBodyOf payload)) as [jsonBody|] eqn:Hj; [|destruct Hin].
  destruct (url_Parse taskAPI); [|destruct Hin].
  destruct Hin as [<-|[]].
  destruct (outbound_headers accessToken taskAPI jsonBody) as [Hct Hck].
  split; [reflexivity|]. split; [reflexivity|].
  split; [exact Hct|]. split; [exact Hck|].
  exists (apiBodyOf payload), jsonBody.
  split; [exact Hj|]. split; [reflexivity|].
  apply apiBodyOf_fields.
Qed.

Lemma C4_witness :
  let req := outbound "secret" taskURL
               (plainObject [("THREAD_ID", "90.5"); ("CHANNEL_ID", "C1");
                             ("USER_ID", "U2"); ("QUERY", "again")]) in
  calls (serve (@handleSlackEvents demoWorld "secret" taskURL
                  (post (plainEnvelope threadMentionPayload)))) = [req] /\
  Method req = "POST" /\
  URL req = taskURL /\
  Header req !! "Content-Type" = Some ["application/json"] /\
  Header req !! "Cookie" = Some ["obot_access_token=secret"] /\
  exists (b : APIRequestBody) (jsonBody : string),
    @json_Marshal demoWorld b = Some jsonBody /\
    Body req = Reads jsonBody /\
    CHANNEL_ID b = "C1" /\ USER_ID b = "U2" /\ QUERY b = "again".
Proof.
  split; [reflexivity|].
  apply (@C4_downstream_request demoWorld "secret" taskURL
           (post (plainEnvelope threadMentionPayload))
           (plainEnvelope threadMentionPayload) threadMentionPayload);
    try reflexivity.
  - split; [reflexivity | left; reflexivity].
  - left; reflexivity.
Defined.

(** C5: for every parsed envelope that is neither a url_verification
    envelope nor a qualifying event callback, the handler makes no
    downstream call and answers with status 200 and an empty body. *)
Theorem C5_everything_else `{W : World}
    (accessToken taskAPI : string) (r : Request) (data : string)
    (payload : SlackEventPayload) :
  Method r = MethodPost ->
  io_ReadAll (Body r) = Some data ->
  json_Unmarshal data = Some payload ->
  Type_ payload <> "url_verification" ->
  ~ Qualifying payload ->
  let s := serve (handleSlackEvents accessToken taskAPI r) in
  calls s = [] /\ status s = 200 /\ body s = "".
Proof.
  intros Hm Hread Hparse Hty Hq s. subst s.
  apply String.eqb_neq in Hty. apply forwards_not_Qualifying in Hq.
  rewrite (serve_ignored accessToken taskAPI r data payload Hm Hread Hparse Hty Hq).
  repeat split.
Qed.

Lemma C5_witness :
  EvType (Event botPayload) = "message" /\
  ChannelType (Event botPayload) = "im" /\
  BotID (Event botPayload) <> "" /\
  let s := serve (@handleSlackEvents demoWorld "secret" taskURL
                    (post (plainEnvelope botPayload))) in
  calls s = [] /\ status s = 200 /\ body s = "".
Proof.
  split; [reflexivity|]. split; [reflexivity|]. split; [discriminate|].
  apply (@C5_everything_else demoWorld "secret" taskURL
           (post (plainEnvelope botPayload)) (plainEnvelope botPayload) botPayload);
    try reflexivity.
  - discriminate.
  - intros [_ [H|[_ [_ H]]]]; discriminate H.
Defined.

(** C6: for every qualifying event the handler makes at most one
    downstream call (no retry), and answers with status 500 when the body
    cannot be serialized, when the request cannot be created, when the
    call it made fails, and when the response of that call cannot be
    read. *)
Theorem C6_failure_is_500 `{W : World}
    (accessToken taskAPI : string) (r : Request) (data : string)
    (payload : SlackEventPayload) :
  Method r = MethodPost ->
  io_ReadAll (Body r) = Some data ->
  json_Unmarshal data = Some payload ->
  Qualifying payload ->
  let s := serve (handleSlackEvents accessToken taskAPI r) in
  (length (calls s) <= 1)%nat /\
  (json_Marshal (apiBodyOf payload) = None -> status s = 500 /\ calls s = []) /\
  (forall jsonBody,
     json_Marshal (apiBodyOf payload) = Some jsonBody ->
     http_NewRequest MethodPost taskAPI (bytes_NewBuffer jsonBody) = None ->
     status s = 500 /\ calls s = []) /\
  (forall req,
     In req (calls s) -> client_Do req = None ->
     status s = 500 /\ calls s = [req]) /\
  (forall req resp,
     In req (calls s) -> client_Do req = Some resp ->
     io_ReadAll (RespBody resp) = None ->
     status s = 500 /\ calls s = [req]).
Proof.
  intros Hm Hread Hparse Hq s. subst s. unfold calls.
  rewrite (serve_forwarded accessToken taskAPI r data payload Hm Hread Hparse
             (Qualifying_not_verification _ Hq) (proj2 (forwards_Qualifying _) Hq)).
  cbv zeta. unfold http_NewRequest.
  destruct (json_Marshal (apiBodyOf payload)) as [jsonBody|].
  2:{ cbn. repeat split; try (intros; contradiction); try discriminate. lia. }
  destruct (url_Parse taskAPI).
  2:{ cbn. repeat split; try (intros; contradiction); try discriminate. lia. }
  destruct (client_Do (outbound accessToken taskAPI jsonBody)) as [resp|] eqn:Hdo.
  - destruct (io_ReadAll (RespBody resp)) eqn:Hresp;
      cbn [status trace downstream errorResponse length];
      (split; [lia|]); (split; [discriminate|]); (split; [discriminate|]); split.
    + intros req [<-|[]] Hnone. congruence.
    + intros req resp' [<-|[]] Hsome Hfail. congruence.
    + intros req [<-|[]] Hnone. congruence.
    + intros req resp' [<-|[]] Hsome Hfail. split; reflexivity.
  - cbn [status trace downstream errorResponse length].
    (split; [lia|]); (split; [discriminate|]); (split; [discriminate|]); split.
    + intros req [<-|[]] _. split; reflexivity.
    + intros req resp' [<-|[]] Hsome. congruence.
Qed.

Lemma C6_witness :
  let s := serve (@handleSlackEvents downWorld "secret" taskURL (post mentionData)) in
  let s' := serve (@handleSlackEvents brokenWorld "secret" taskURL (post mentionData)) in
  (status s = 500 /\ (length (calls s) <= 1)%nat) /\
  (status s' = 500 /\ (length (calls s') <= 1)%nat).
Proof.
  assert (Hq : Qualifying mentionPayload)
    by (split; [reflexivity | left; reflexivity]).
  split.
  - destruct (@C6_failure_is_500 downWorld "secret" taskURL (post mentionData)
                mentionData mentionPayload eq_refl eq_refl eq_refl Hq)
      as (Hlen & _ & _ & Hsend & _).
    split; [|exact Hlen].
    apply (Hsend (outbound "secret" taskURL
                    (plainObject [("THREAD_ID", "100.1"); ("CHANNEL_ID", "C1");
                                  ("USER_ID", "U1"); ("QUERY", "hi")])));
      [left; reflexivity | reflexivity].
  - destruct (@C6_failure_is_500 brokenWorld "secret" taskURL (post mentionData)
                mentionData mentionPayload eq_refl eq_refl eq_refl Hq)
      as (Hlen & _ & _ & _ & Hresp).
    split; [|exact Hlen].
    apply (Hresp (outbound "secret" taskURL
                    (plainObject [("THREAD_ID", "100.1"); ("CHANNEL_ID", "C1");
                                  ("USER_ID", "U1"); ("QUERY", "hi")]))
                 {| StatusCode := 200; RespBody := Fails "o" |});
      [left; reflexivity | reflexivity | reflexivity].
Defined.

(** C7, as stated, fails: a request with another method whose body is not
    JSON is answered with status 405, not 400. *)
Lemma C7_counterexample :
  let s := serve (@handleSlackEvents demoWorld "secret" taskURL (get "not json")) in
  io_ReadAll (Body (get "not json")) = Some "not json" /\
  @json_Unmarshal demoWorld "not json" = None /\
  status s = 405 /\
  status s <> 400.
Proof.
  cbv zeta. repeat (split; [reflexivity|]). discriminate.
Qed.

(** C7 (amended): for every request whose body is read and is not valid
    JSON for the envelope, the handler makes no downstream call, and when
    the method is POST it answers with status 400. *)
Theorem C7_malformed_body `{W : World}
    (accessToken taskAPI : string) (r : Request) (data : string) :
  io_ReadAll (Body r) = Some data ->
  json_Unmarshal data = None ->
  let s := serve (handleSlackEvents accessToken taskAPI r) in
  calls s = [] /\ (Method r = MethodPost -> status s = 400).
Proof.
  intros Hread Hparse s. subst s.
  destruct (String.eqb_spec (Method r) MethodPost) as [Hm|Hm].
  - rewrite (serve_malformed accessToken taskAPI r data Hm Hread Hparse).
    split; [reflexivity | intros _; reflexivity].
  - rewrite (serve_not_post accessToken taskAPI r Hm).
    split; [reflexivity | intros Hm'; contradiction].
Qed.

Lemma C7_witness :
  let s := serve (@handleSlackEvents demoWorld "secret" taskURL (post "not json")) in
  calls s = [] /\ status s = 400.
Proof.
  destruct (@C7_malformed_body demoWorld "secret" taskURL (post "not json")
              "not json" eq_refl eq_refl) as [Hcalls Hstatus].
  split; [exact Hcalls | exact (Hstatus eq_refl)].
Defined.

(** C8: for every request whose method is not POST, the handler answers
    with status 405 and does nothing else: its trace is empty, so it logs
    nothing and makes no downstream call. *)
Theorem C8_method_not_allowed `{W : World}
    (accessToken taskAPI : string) (r : Request) :
  Method r <> "POST" ->
  let s := serve (handleSlackEvents accessToken taskAPI r) in
  status s = 405 /\ trace s = [] /\ calls s = [].
Proof.
  intros Hm s. subst s.
  rewrite (serve_not_post accessToken taskAPI r Hm). repeat split.
Qed.

Lemma C8_witness :
  let s := serve (@handleSlackEvents demoWorld "secret" taskURL (get mentionData)) in
  status s = 405 /\ trace s = [] /\ calls s = [].
Proof.
  apply (@C8_method_not_allowed demoWorld "secret" taskURL (get mentionData)).
  discriminate.
Defined.

(** The example of the specification: the app mention outside a thread
    is forwarded with its ts as THREAD_ID, and answered with a bare 200. *)
Example spec_example :
  let s := serve (@handleSlackEvents demoWorld "secret" taskURL (post mentionData)) in
  calls s = [outbound "secret" taskURL
               (plainObject [("THREAD_ID", "100.1"); ("CHANNEL_ID", "C1");
                             ("USER_ID", "U1"); ("QUERY", "hi")])] /\
  status s = 200 /\ body s = "" /\
  trace s = [LogPrintf ("Raw event data: " +:+ mentionData);
             ClientDo (outbound "secret" taskURL
                         (plainObject [("THREAD_ID", "100.1"); ("CHANNEL_ID", "C1");
                                       ("USER_ID", "U1"); ("QUERY", "hi")]));
             LogPrintf "Response from API: ok";
             BodyClose].
Proof. repeat split. Qed.

(** ** The process *)

Lemma main_port `{H : Host} :
  (let port := "8088" in
   let envPort := os_Getenv "PORT" in
   ":" +:+ (if negb (envPort =? "") then envPort else port)) = listenAddr.
Proof.
  unfold listenAddr. cbv zeta.
  destruct (os_Getenv "PORT" =? ""); reflexivity.
Qed.

(** C9, as stated, fails: with the token set and a PORT that cannot be
    listened on, the process ends in [log.Fatal] before it serves. *)
Lemma C9_counterexample :
  @os_Getenv badPortHost "OBOT_ACCESS_TOKEN" = "secret" /\
  fatal (@main demoWorld badPortHost) = true /\
  ~ (fatal (@main demoWorld badPortHost) = true
     <-> @os_Getenv badPortHost "OBOT_ACCESS_TOKEN" = "").
Proof.
  split; [reflexivity|]. split; [reflexivity|].
  intros [Hfatal _]. specialize (Hfatal eq_refl). discriminate Hfatal.
Qed.

(** C9 (amended): the process terminates fatally before serving any
    traffic if and only if OBOT_ACCESS_TOKEN is absent (empty) or the
    listener cannot be started; in particular, with the token set and a
    listener that starts, an absent TASK_API_URL does not prevent startup:
    the handler is served with the empty string for its URL. *)
Theorem C9_fatal_startup `{W : World} `{H : Host} :
  (fatal main = true <->
   os_Getenv "OBOT_ACCESS_TOKEN" = "" \/ http_ListenAndServe listenAddr <> None) /\
  (environ !! "OBOT_ACCESS_TOKEN" = None ->
   main = Fatal "OBOT_ACCESS_TOKEN environment variable must be set" "") /\
  (os_Getenv "OBOT_ACCESS_TOKEN" <> "" ->
   http_ListenAndServe listenAddr = None ->
   os_Getenv "TASK_API_URL" = "" ->
   exists stdout,
     main = Serving listenAddr
              [("/slack/events", handleSlackEvents (os_Getenv "OBOT_ACCESS_TOKEN") "")]
              stdout).
Proof.
  unfold main. rewrite main_port.
  destruct (String.eqb_spec (os_Getenv "OBOT_ACCESS_TOKEN") "") as [Htok|Htok].
  - split; [|split].
    + split; [intros _; left; exact Htok | reflexivity].
    + reflexivity.
    + intros Hne; contradiction.
  - assert (Hset : environ !! "OBOT_ACCESS_TOKEN" = None -> False).
    { intros Hnone. apply Htok. unfold os_Getenv. rewrite Hnone. reflexivity. }
    destruct (http_ListenAndServe listenAddr) as [err|] eqn:Hl.
    + split; [|split].
      * split; [intros _; right; discriminate | reflexivity].
      * intros Hnone. destruct (Hset Hnone).
      * discriminate.
    + split; [|split].
      * split; [discriminate|]. intros [Hempty|Hne]; contradiction.
      * intros Hnone. destruct (Hset Hnone).
      * intros _ _ Hurl. rewrite Hurl. eexists. reflexivity.
Qed.

Example main_demo :
  exists stdout,
    @main demoWorld demoHost =
      Serving ":8088" [("/slack/events", @handleSlackEvents demoWorld "secret" taskURL)]
        stdout.
Proof. eexists. reflexivity. Qed.

Example main_without_task_url :
  fatal (@main demoWorld noURLHost) = false.
Proof. reflexivity. Qed.

Example main_without_token :
  @main demoWorld {| environ := {[ "TASK_API_URL" := taskURL ]};
                     http_ListenAndServe := fun _ => None |}
  = Fatal "OBOT_ACCESS_TOKEN environment variable must be set" "".
Proof. reflexivity. Qed.

Example main_bad_port :
  @main demoWorld badPortHost =
    Fatal "listen tcp: unknown port"
      ("Server starting on port http?..." +:+ newline).
Proof. reflexivity. Qed.

(** C10, as stated, fails for the same reason as C1: with a task URL that
    does not parse, an app mention (here one with a bot id) is answered
    with no downstream call. *)
Lemma C10_counterexample :
  let s := serve (@handleSlackEvents demoWorld "secret" badURL
                    (post (plainEnvelope threadMentionPayload))) in
  @json_Unmarshal demoWorld (plainEnvelope threadMentionPayload)
    = Some threadMentionPayload /\
  @url_Parse demoWorld badURL = false /\
  Type_ threadMentionPayload = "event_callback" /\
  EvType (Event threadMentionPayload) = "app_mention" /\
  BotID (Event threadMentionPayload) = "B7" /\
  calls s = [] /\
  status s = 500 /\
  ~ posts s.
Proof.
  cbv zeta. repeat (split; [reflexivity|]).
  intros Hposts. apply Hposts. reflexivity.
Qed.

(** C10 (amended): for every event callback whose event is an app
    mention, whatever its bot_id, the handler sends its one downstream
    request whenever that request can be built (the body serializes and
    the configured URL parses). *)
Theorem C10_app_mention_ignores_bot_id `{W : World}
    (accessToken taskAPI : string) (r : Request) (data : string)
    (payload : SlackEventPayload) (jsonBody : string) :
  Method r = MethodPost ->
  io_ReadAll (Body r) = Some data ->
  json_Unmarshal data = Some payload ->
  Type_ payload = "event_callback" ->
  EvType (Event payload) = "app_mention" ->
  json_Marshal (apiBodyOf payload) = Some jsonBody ->
  url_Parse taskAPI = true ->
  let s := serve (handleSlackEvents accessToken taskAPI r) in
  posts s /\ calls s = [outbound accessToken taskAPI jsonBody].
Proof.
  intros Hm Hread Hparse Hty Hev Hj Hurl s. subst s.
  assert (Hq : Qualifying payload) by (split; [exact Hty | left; exact Hev]).
  unfold posts.
  rewrite (calls_forwarded accessToken taskAPI r data payload Hm Hread Hparse Hq),
    Hj, Hurl.
  split; [discriminate | reflexivity].
Qed.

Lemma C10_witness :
  BotID (Event threadMentionPayload) <> "" /\
  let s := serve (@handleSlackEvents demoWorld "secret" taskURL
                    (post (plainEnvelope threadMentionPayload))) in
  posts s /\
  calls s = [outbound "secret" taskURL
               (plainObject [("THREAD_ID", "90.5"); ("CHANNEL_ID", "C1");
                             ("USER_ID", "U2"); ("QUERY", "again")])].
Proof.
  split; [discriminate|].
  apply (@C10_app_mention_ignores_bot_id demoWorld "secret" taskURL
           (post (plainEnvelope threadMentionPayload))
           (plainEnvelope threadMentionPayload) threadMentionPayload);
    reflexivity.
Defined.

(** * Further properties of the handler and of main *)

Section Outcomes.
Context `{W : World} (accessToken taskAPI : string).

(** Every run of the handler is one of the ten outcomes. *)
Lemma serve_Outcome (r : Request) :
  Outcome accessToken taskAPI r (serve (handleSlackEvents accessToken taskAPI r)).
Proof.
  destruct (String.eqb_spec (Method r) MethodPost) as [Hm|Hm].
  2:{ rewrite (serve_not_post accessToken taskAPI r Hm). now constructor. }
  destruct (io_ReadAll (Body r)) as [data|] eqn:Hread.
  2:{ rewrite (serve_unreadable accessToken taskAPI r Hm Hread). now constructor. }
  destruct (json_Unmarshal data) as [payload|] eqn:Hparse.
  2:{ rewrite (serve_malformed accessToken taskAPI r data Hm Hread Hparse).
      now apply Malformed. }
  destruct (String.eqb_spec (Type_ payload) "url_verification") as [Hty|Hty].
  { rewrite (serve_verification accessToken taskAPI r data payload Hm Hread Hparse Hty).
    now apply Verified. }
  pose proof Hty as Hty'. apply String.eqb_neq in Hty'.
  destruct (forwards payload) eqn:Hfw.
  2:{ rewrite (serve_ignored accessToken taskAPI r data payload Hm Hread Hparse Hty' Hfw).
      apply Ignored with (payload := payload); auto.
      now apply forwards_not_Qualifying. }
  pose proof (proj1 (forwards_Qualifying _) Hfw) as Hq.
  rewrite (serve_forwarded accessToken taskAPI r data payload Hm Hread Hparse Hty' Hfw).
  cbv zeta.
  destruct (json_Marshal (apiBodyOf payload)) as [jsonBody|] eqn:Hj.
  2:{ now apply Unserializable with (payload := payload). }
  destruct (url_Parse taskAPI) eqn:Hurl.
  2:{ now apply Unbuildable with (payload := payload) (jsonBody := jsonBody). }
  destruct (client_Do (outbound accessToken taskAPI jsonBody)) as [resp|] eqn:Hdo.
  2:{ now apply Unsent with (payload := payload). }
  destruct (io_ReadAll (RespBody resp)) as [respBody|] eqn:Hresp.
  - now apply Forwarded with (payload := payload) (resp := resp).
  - now apply Unanswered with (payload := payload) (resp := resp).
Qed.

End Outcomes.

(** X1: a POST whose body cannot be read is answered with status 500 and
    the message of line 79; nothing is logged, not even what was read of
    the body, and nothing is sent downstream. *)
Theorem unreadable_body_is_500 `{W : World}
    (accessToken taskAPI : string) (r : Request) :
  Method r = MethodPost ->
  io_ReadAll (Body r) = None ->
  let s := serve (handleSlackEvents accessToken taskAPI r) in
  status s = 500 /\
  body s = "Failed to read request body" +:+ newline /\
  header s !! "Content-Type" = Some ["text/plain; charset=utf-8"] /\
  trace s = [].
Proof.
  intros Hm Hread s. subst s.
  rewrite (serve_unreadable accessToken taskAPI r Hm Hread).
  unfold errorResponse, Header_Set; cbn [status body header trace].
  split; [reflexivity|]. split; [reflexivity|]. split; [|reflexivity].
  rewrite lookup_insert_ne by discriminate. apply lookup_insert_eq.
Qed.

Lemma unreadable_body_is_500_witness :
  let s := serve (@handleSlackEvents demoWorld "secret" taskURL brokenPost) in
  status s = 500 /\
  body s = "Failed to read request body" +:+ newline /\
  header s !! "Content-Type" = Some ["text/plain; charset=utf-8"] /\
  trace s = [].
Proof.
  apply (@unreadable_body_is_500 demoWorld "secret" taskURL brokenPost);
    reflexivity.
Defined.

(** X2: when the downstream call returns a response whose body can be
    read, the caller gets a bare 200 whatever the status code of that
    response: the response is logged and closed, never inspected. *)
Theorem downstream_status_ignored `{W : World}
    (accessToken taskAPI : string) (r : Request) (data : string)
    (payload : SlackEventPayload) (jsonBody : string) (resp : Response)
    (respBody : string) :
  Method r = MethodPost ->
  io_ReadAll (Body r) = Some data ->
  json_Unmarshal data = Some payload ->
  Qualifying payload ->
  json_Marshal (apiBodyOf payload) = Some jsonBody ->
  url_Parse taskAPI = true ->
  client_Do (outbound accessToken taskAPI jsonBody) = Some resp ->
  io_ReadAll (RespBody resp) = Some respBody ->
  let s := serve (handleSlackEvents accessToken taskAPI r) in
  status s = 200 /\ body s = "" /\ header s = ∅ /\
  trace s = [rawLog data; ClientDo (outbound accessToken taskAPI jsonBody);
             LogPrintf ("Response from API: " +:+ respBody); BodyClose].
Proof.
  intros Hm Hread Hparse Hq Hj Hurl Hdo Hresp s. subst s.
  rewrite (serve_forwarded accessToken taskAPI r data payload Hm Hread Hparse
             (Qualifying_not_verification _ Hq) (proj2 (forwards_Qualifying _) Hq)).
  cbv zeta. rewrite Hj, Hurl, Hdo, Hresp. repeat split.
Qed.

Lemma downstream_status_ignored_witness :
  let s := serve (@handleSlackEvents refusingWorld "secret" taskURL (post mentionData)) in
  (exists req resp, calls s = [req] /\
     @client_Do refusingWorld req = Some resp /\ StatusCode resp = 401) /\
  status s = 200 /\ body s = "" /\ header s = ∅ /\
  trace s = [rawLog mentionData;
             ClientDo (outbound "secret" taskURL
                         (plainObject [("THREAD_ID", "100.1"); ("CHANNEL_ID", "C1");
                                       ("USER_ID", "U1"); ("QUERY", "hi")]));
             LogPrintf "Response from API: unauthorized"; BodyClose].
Proof.
  split.
  - eexists. eexists. split; [reflexivity|]. split; reflexivity.
  - apply (@downstream_status_ignored refusingWorld "secret" taskURL
             (post mentionData) mentionData mentionPayload _
             {| StatusCode := 401; RespBody := Reads "unauthorized" |});
      try reflexivity.
    split; [reflexivity | left; reflexivity].
Defined.

(** X3: the status answered is one of 200, 400, 405 and 500; it is 405
    exactly for the requests whose method is not POST, and 400 exactly for
    the POST requests whose body is read and does not decode. *)
Theorem status_codes `{W : World} (accessToken taskAPI : string) (r : Request) :
  In (status (serve (handleSlackEvents accessToken taskAPI r))) [200; 400; 405; 500] /\
  (status (serve (handleSlackEvents accessToken taskAPI r)) = 405
   <-> Method r <> MethodPost) /\
  (status (serve (handleSlackEvents accessToken taskAPI r)) = 400
   <-> Method r = MethodPost /\
       exists data, io_ReadAll (Body r) = Some data /\ json_Unmarshal data = None).
Proof.
  destruct (serve_Outcome accessToken taskAPI r);
    unfold errorResponse, bareOK; cbn [status].
  all: split; [cbn; tauto|].
  all: split; [split; [try discriminate; tauto | try tauto]|].
  all: split; try discriminate.
  all: try (intros [_ (data' & Hr' & Hp')]; congruence).
  all: try (intros [Hm' _]; contradiction).
  - intros _. split; [assumption|]. eauto.
  - reflexivity.
Qed.

(** X4: what the caller is sent is drawn from a fixed table: a 200 with an
    empty body and no header, a 200 echoing the challenge of a decoded
    url_verification envelope, or an error status with one of the seven
    messages of the source as text/plain. Nothing of the event, of the
    token or of the downstream API's answer is ever sent back. *)
Theorem response_table `{W : World} (accessToken taskAPI : string) (r : Request) :
  let s := serve (handleSlackEvents accessToken taskAPI r) in
  (status s = 200 /\ body s = "" /\ header s = ∅) \/
  (exists data payload,
     io_ReadAll (Body r) = Some data /\
     json_Unmarshal data = Some payload /\
     Type_ payload = "url_verification" /\
     status s = 200 /\
     body s = json_MarshalMap {[ "challenge" := Challenge payload ]} +:+ newline /\
     header s = Header_Set "Content-Type" "application/json" ∅) \/
  (exists msg,
     In msg errorMessages /\
     In (status s) [400; 405; 500] /\
     body s = msg +:+ newline /\
     header s = errorHeader).
Proof.
  intros s. subst s.
  destruct (serve_Outcome accessToken taskAPI r);
    unfold errorResponse, bareOK; cbn [status body header].
  4:{ right; left. exists data, payload. repeat split; assumption. }
  4,9:(left; repeat split).
  all: right; right; eexists; (split; [|split; [|split; reflexivity]]);
    cbn; tauto.
Qed.

(** X5: the handler logs the raw body of every POST whose body it could
    read, as its first effect and once, also when the body does not decode;
    for every other request it has no effect at all. *)
Theorem raw_body_logged `{W : World} (accessToken taskAPI : string) (r : Request) :
  let s := serve (handleSlackEvents accessToken taskAPI r) in
  (trace s = [] <-> Method r <> MethodPost \/ io_ReadAll (Body r) = None) /\
  (forall data,
     Method r = MethodPost ->
     io_ReadAll (Body r) = Some data ->
     exists rest,
       trace s = LogPrintf ("Raw event data: " +:+ data) :: rest /\
       ~ In (LogPrintf ("Raw event data: " +:+ data)) rest).
Proof.
  intros s. subst s.
  destruct (serve_Outcome accessToken taskAPI r);
    unfold errorResponse, bareOK, rawLog; cbn [trace].
  1:{ split; [tauto|]. intros; contradiction. }
  1:{ split; [tauto|]. intros; congruence. }
  all: split; [split; [discriminate | intros [Hm|Hr]; congruence]|].
  all: intros data' _ Hr'; assert (data' = data) as -> by congruence.
  all: eexists; split; [reflexivity|].
  all: cbn [In]; intros Hin;
    repeat (destruct Hin as [Hin|Hin]; [discriminate Hin|]); exact Hin.
Qed.

(** X6: the body of the downstream response is closed exactly when the
    call succeeded and the response could be read; when reading it fails
    the handler returns without closing it. *)
Theorem body_closed_iff_read `{W : World} (accessToken taskAPI : string) (r : Request) :
  let s := serve (handleSlackEvents accessToken taskAPI r) in
  In BodyClose (trace s) <->
  exists req resp respBody,
    In (ClientDo req) (trace s) /\
    client_Do req = Some resp /\
    io_ReadAll (RespBody resp) = Some respBody.
Proof.
  intros s. subst s.
  destruct (serve_Outcome accessToken taskAPI r);
    unfold errorResponse, bareOK, rawLog; cbn [trace In].
  10:{ split; [|tauto]. intros _. exists (outbound accessToken taskAPI jsonBody), resp, respBody.
       repeat split; [|assumption|assumption]. right; left; reflexivity. }
  all: split;
    [ intros Hin; repeat (destruct Hin as [Hin|Hin]; [discriminate Hin|]); destruct Hin
    | intros (req & resp' & respBody' & Hin & Hdo & Hrd);
      repeat (destruct Hin as [Hin|Hin];
              [first [discriminate Hin | injection Hin as <-; congruence]|]);
      destruct Hin ].
Qed.

(** X7: the handler reads nothing of a request but its method and its
    body: two requests with the same method and body are served alike,
    whatever their headers (a signature, say) and their URL. *)
Theorem inbound_headers_unread `{W : World}
    (accessToken taskAPI : string) (r r' : Request) :
  Method r = Method r' ->
  Body r = Body r' ->
  serve (handleSlackEvents accessToken taskAPI r) =
  serve (handleSlackEvents accessToken taskAPI r').
Proof.
  intros Hm Hb. unfold handleSlackEvents. rewrite Hm, Hb. reflexivity.
Qed.

Lemma inbound_headers_unread_witness :
  Header signedPost <> Header (post mentionData) /\
  URL signedPost <> URL (post mentionData) /\
  serve (@handleSlackEvents demoWorld "secret" taskURL signedPost) =
  serve (@handleSlackEvents demoWorld "secret" taskURL (post mentionData)).
Proof.
  split; [|split].
  - intros Heq.
    assert (Hl : Header signedPost !! "X-Slack-Signature"
                 = Header (post mentionData) !! "X-Slack-Signature")
      by (rewrite Heq; reflexivity).
    discriminate Hl.
  - discriminate.
  - apply (@inbound_headers_unread demoWorld "secret" taskURL signedPost
             (post mentionData)); reflexivity.
Defined.

(** X8: with the token set, [main] registers the one route /slack/events,
    with the handler closed over the token and TASK_API_URL, prints its
    start line, and listens on PORT as given (unchecked), or on 8088 when
    PORT is unset or empty; the start line is printed also when listening
    fails, and the process then ends in [log.Fatal] with the listener's
    error. *)
Theorem main_listens `{W : World} `{H : Host} :
  os_Getenv "OBOT_ACCESS_TOKEN" <> "" ->
  match http_ListenAndServe (":" +:+ listenPort) with
  | None =>
    main = Serving (":" +:+ listenPort)
             [("/slack/events",
               handleSlackEvents (os_Getenv "OBOT_ACCESS_TOKEN")
                                 (os_Getenv "TASK_API_URL"))]
             startLine
  | Some err => main = Fatal err startLine
  end /\
  (environ !! "PORT" = None -> listenPort = "8088") /\
  (environ !! "PORT" = Some "" -> listenPort = "8088") /\
  (forall p, p <> "" -> environ !! "PORT" = Some p -> listenPort = p).
Proof.
  intros Htok. apply String.eqb_neq in Htok.
  split; [|split; [|split]].
  - unfold main, startLine, listenPort. rewrite Htok. cbv zeta.
    destruct (os_Getenv "PORT" =? ""); cbn [negb];
      destruct (http_ListenAndServe _); reflexivity.
  - intros Hp. unfold listenPort, os_Getenv. rewrite Hp. reflexivity.
  - intros Hp. unfold listenPort, os_Getenv. rewrite Hp. reflexivity.
  - intros p Hne Hp. unfold listenPort, os_Getenv. rewrite Hp.
    change (default "" (Some p)) with p.
    apply String.eqb_neq in Hne. rewrite Hne. reflexivity.
Qed.

Lemma main_listens_witness :
  @main demoWorld portHost =
    Serving ":9090" [("/slack/events", @handleSlackEvents demoWorld "secret" "")]
      ("Server starting on port 9090..." +:+ newline) /\
  @main demoWorld badPortHost =
    Fatal "listen tcp: unknown port" ("Server starting on port http?..." +:+ newline).
Proof.
  split.
  - pose proof (@main_listens demoWorld portHost) as Hmain.
    destruct Hmain as [Hmain _]; [discriminate|]. exact Hmain.
  - pose proof (@main_listens demoWorld badPortHost) as Hmain.
    destruct Hmain as [Hmain _]; [discriminate|]. exact Hmain.
Defined.

(** * Properties of the server with the slash-command route *)

Section Command.
Context `{W : World} `{F : CommandServer.FormWorld} (accessToken : string).

Lemma serve_command_not_post (r : Request) :
  Method r <> MethodPost ->
  serve (CommandServer.handleSlackCommand accessToken r) =
    errorResponse "Method not allowed" StatusMethodNotAllowed [].
Proof.
  intros Hm. apply String.eqb_neq in Hm.
  unfold serve, CommandServer.handleSlackCommand. rewrite Hm. reflexivity.
Qed.

Lemma serve_command_no_form (r : Request) :
  Method r = MethodPost ->
  CommandServer.r_ParseForm r = None ->
  serve (CommandServer.handleSlackCommand accessToken r) =
    errorResponse "Failed to parse form data" StatusBadRequest [].
Proof.
  intros Hm Hform.
  unfold serve, CommandServer.handleSlackCommand.
  rewrite Hm, String.eqb_refl, Hform. reflexivity.
Qed.

Lemma serve_command_form (r : Request) (form : gmap string (list string)) :
  Method r = MethodPost ->
  CommandServer.r_ParseForm r = Some form ->
  serve (CommandServer.handleSlackCommand accessToken r) =
    match json_Marshal (CommandServer.commandBodyOf (CommandServer.slackPayloadOf form)) with
    | None =>
      errorResponse "Failed to create request body" StatusInternalServerError []
    | Some jsonBody =>
      let req := CommandServer.outboundTo CommandServer.commandURL accessToken jsonBody in
      if url_Parse CommandServer.commandURL then
        match client_Do req with
        | None =>
          errorResponse "Failed to send request to API" StatusInternalServerError
            [ClientDo req]
        | Some resp =>
          {| status := StatusOK;
             header := Header_Set "Content-Type" "application/json" ∅;
             body := CommandServer.inChannel;
             trace := [ClientDo req; BodyClose] |}
        end
      else
        errorResponse "Failed to create API request" StatusInternalServerError []
    end.
Proof.
  intros Hm Hform.
  unfold serve, CommandServer.handleSlackCommand.
  rewrite Hm, String.eqb_refl, Hform. cbv zeta.
  destruct (json_Marshal _) as [jsonBody|]; [|reflexivity].
  unfold http_NewRequest.
  destruct (url_Parse CommandServer.commandURL); [|reflexivity].
  unfold do_request, bind, emit, ret; cbn -[Header_Set String.append CommandServer.commandURL].
  change (req_Header_Set _ _ (req_Header_Set _ _ _))
    with (CommandServer.outboundTo CommandServer.commandURL accessToken jsonBody).
  destruct (client_Do _) as [resp|]; reflexivity.
Qed.

End Command.

(** X9: whatever the request, the command handler makes at most one
    downstream call, and a call it makes is a POST to the URL written in
    the source, with the token in the Cookie header and as body the
    serialization of the form's thread_ts, channel_id, user_id and text,
    each the first value of its key or empty when the key is missing; the
    thread id has no fallback. *)
Theorem command_request `{W : World} `{F : CommandServer.FormWorld}
    (accessToken : string) (r : Request) :
  let s := serve (CommandServer.handleSlackCommand accessToken r) in
  (length (calls s) <= 1)%nat /\
  forall req, In req (calls s) ->
    exists form jsonBody,
      Method r = MethodPost /\
      CommandServer.r_ParseForm r = Some form /\
      json_Marshal {| THREAD_ID := CommandServer.r_FormValue form "thread_ts";
                      CHANNEL_ID := CommandServer.r_FormValue form "channel_id";
                      USER_ID := CommandServer.r_FormValue form "user_id";
                      QUERY := CommandServer.r_FormValue form "text" |}
        = Some jsonBody /\
      Method req = "POST" /\
      URL req = CommandServer.commandURL /\
      Header req !! "Content-Type" = Some ["application/json"] /\
      Header req !! "Cookie" = Some ["obot_access_token=" +:+ accessToken] /\
      Body req = Reads jsonBody.
Proof.
  intros s. subst s.
  destruct (String.eqb_spec (Method r) MethodPost) as [Hm|Hm].
  2:{ rewrite (serve_command_not_post accessToken r Hm).
      split; [cbn; lia | intros req []]. }
  destruct (CommandServer.r_ParseForm r) as [form|] eqn:Hform.
  2:{ rewrite (serve_command_no_form accessToken r Hm Hform).
      split; [cbn; lia | intros req []]. }
  rewrite (serve_command_form accessToken r form Hm Hform). cbv zeta.
  destruct (json_Marshal _) as [jsonBody|] eqn:Hj.
  2:{ split; [cbn; lia | intros req []]. }
  destruct (url_Parse CommandServer.commandURL).
  2:{ split; [cbn; lia | intros req []]. }
  destruct (client_Do _) as [resp|];
    (split; [cbn; lia|]); intros req [<-|[]]; exists form, jsonBody;
    (split; [exact Hm|]); (split; [reflexivity|]);
    (split; [first [exact Hj | reflexivity]|]);
    (split; [reflexivity|]); (split; [reflexivity|]);
    unfold CommandServer.outboundTo, Header_Set; cbn [Header Body];
    (split; [rewrite lookup_insert_ne by discriminate; apply lookup_insert_eq|]);
    (split; [apply lookup_insert_eq | reflexivity]).
Qed.

(** X10: the command handler answers 200 exactly when its downstream call
    returned a response, and then with the fixed in_channel object as
    application/json, the response's body closed unread: neither the
    status code nor the body of the downstream response is looked at. *)
Theorem command_reply `{W : World} `{F : CommandServer.FormWorld}
    (accessToken : string) (r : Request) :
  let s := serve (CommandServer.handleSlackCommand accessToken r) in
  (status s = 200 <->
   exists req resp, In req (calls s) /\ client_Do req = Some resp) /\
  (status s = 200 ->
   body s = CommandServer.inChannel /\
   header s !! "Content-Type" = Some ["application/json"] /\
   trace s = map ClientDo (calls s) ++ [BodyClose]) /\
  (status s <> 200 -> ~ In BodyClose (trace s)).
Proof.
  intros s. subst s.
  assert (Hnone : forall (st : Z) (msg : string),
            st <> 200 ->
            (st = 200 <-> exists req resp, In req (@nil Request) /\ client_Do req = Some resp) /\
            (st = 200 -> msg +:+ newline = CommandServer.inChannel /\
               errorHeader !! "Content-Type" = Some ["application/json"] /\
               @nil Effect = map ClientDo [] ++ [BodyClose]) /\
            (st <> 200 -> ~ In BodyClose [])).
  { intros st msg Hst. split; [|split].
    - split; [contradiction | intros (req & resp & [] & _)].
    - contradiction.
    - intros _ []. }
  destruct (String.eqb_spec (Method r) MethodPost) as [Hm|Hm].
  2:{ rewrite (serve_command_not_post accessToken r Hm). apply Hnone. discriminate. }
  destruct (CommandServer.r_ParseForm r) as [form|] eqn:Hform.
  2:{ rewrite (serve_command_no_form accessToken r Hm Hform). apply Hnone. discriminate. }
  rewrite (serve_command_form accessToken r form Hm Hform). cbv zeta.
  destruct (json_Marshal _) as [jsonBody|] eqn:Hj.
  2:{ apply Hnone. discriminate. }
  destruct (url_Parse CommandServer.commandURL).
  2:{ apply Hnone. discriminate. }
  destruct (client_Do _) as [resp|] eqn:Hdo;
    unfold calls, errorResponse; cbn [status body header trace downstream map app].
  - split; [|split].
    + split; [|reflexivity]. intros _. eexists. exists resp.
      split; [left; reflexivity | exact Hdo].
    + intros _. split; [reflexivity|]. split; [apply lookup_insert_eq | reflexivity].
    + intros Hne. contradiction Hne. reflexivity.
  - split; [|split].
    + split; [discriminate|]. intros (req & resp & [<-|[]] & Hsome). congruence.
    + discriminate.
    + intros _ [Hin|[]]. discriminate Hin.
Qed.

Example command_demo :
  let s := serve (@CommandServer.handleSlackCommand openWorld demoForms
                    "secret" (post commandData)) in
  calls s = [CommandServer.outboundTo CommandServer.commandURL "secret"
               (plainObject [("THREAD_ID", ""); ("CHANNEL_ID", "C1");
                             ("USER_ID", "U1"); ("QUERY", "deploy")])] /\
  status s = 200 /\ body s = CommandServer.inChannel.
Proof. repeat split. Qed.

(** X11: the command handler answers 405 exactly for the requests whose
    method is not POST and 400 exactly for the POST requests whose form
    does not parse; in both cases, and whenever it answers 500 without
    having sent, it has no effect. It never logs. *)
Theorem command_rejections `{W : World} `{F : CommandServer.FormWorld}
    (accessToken : string) (r : Request) :
  let s := serve (CommandServer.handleSlackCommand accessToken r) in
  (status s = 405 <-> Method r <> MethodPost) /\
  (status s = 400 <-> Method r = MethodPost /\ CommandServer.r_ParseForm r = None) /\
  In (status s) [200; 400; 405; 500] /\
  (calls s = [] -> trace s = []) /\
  (forall line, ~ In (LogPrintf line) (trace s)).
Proof.
  intros s. subst s.
  destruct (String.eqb_spec (Method r) MethodPost) as [Hm|Hm].
  2:{ rewrite (serve_command_not_post accessToken r Hm).
      unfold errorResponse; cbn [status trace In].
      split; [tauto|]. split; [split; [discriminate | tauto]|].
      split; [cbn; tauto|]. split; [reflexivity | intros line []]. }
  destruct (CommandServer.r_ParseForm r) as [form|] eqn:Hform.
  2:{ rewrite (serve_command_no_form accessToken r Hm Hform).
      unfold errorResponse; cbn [status trace In].
      split; [split; [discriminate | intros Hne; contradiction]|].
      split; [tauto|].
      split; [cbn; tauto|]. split; [reflexivity | intros line []]. }
  rewrite (serve_command_form accessToken r form Hm Hform). cbv zeta.
  destruct (json_Marshal _) as [jsonBody|];
    [destruct (url_Parse CommandServer.commandURL);
       [destruct (client_Do _) as [resp|]|]|];
    unfold calls, errorResponse; cbn [status trace downstream].
  all: split; [split; [discriminate | intros Hne; contradiction]|].
  all: split; [split; [discriminate | intros [_ Hn]; discriminate Hn]|].
  all: split; [cbn; tauto|].
  all: split; [try discriminate; try reflexivity|].
  all: intros line Hin; cbn [In] in Hin;
    repeat (destruct Hin as [Hin|Hin]; [discriminate Hin|]); exact Hin.
Qed.

Section MentionsOnly.
Context `{W : World} `{F : CommandServer.FormWorld} (accessToken : string).

Lemma serve_mentions_decoded (r : Request) (payload : CommandServer.SlackEventPayload) :
  Method r = MethodPost ->
  CommandServer.json_Decode (Body r) = Some payload ->
  serve (CommandServer.handleSlackEvents accessToken r) =
    if CommandServer.Type_ payload =? "url_verification" then
      {| status := StatusOK;
         header := Header_Set "Content-Type" "application/json" ∅;
         body := json_MarshalMap {[ "challenge" := CommandServer.Challenge payload ]}
                 +:+ newline;
         trace := [] |}
    else if CommandServer.forwards payload then
      match json_Marshal (CommandServer.apiBodyOf payload) with
      | None =>
        errorResponse "Failed to create request body" StatusInternalServerError []
      | Some jsonBody =>
        let req := CommandServer.outboundTo CommandServer.eventsURL accessToken jsonBody in
        if url_Parse CommandServer.eventsURL then
          match client_Do req with
          | None =>
            errorResponse "Failed to send request to API" StatusInternalServerError
              [ClientDo req]
          | Some resp =>
            match io_ReadAll (RespBody resp) with
            | None =>
              errorResponse "Failed to read response body" StatusInternalServerError
                [ClientDo req]
            | Some respBody =>
              bareOK [ClientDo req; LogPrintf ("Response from API: " +:+ respBody);
                      BodyClose]
            end
          end
        else
          errorResponse "Failed to create API request" StatusInternalServerError []
      end
    else bareOK [].
Proof.
  intros Hm Hdec.
  unfold serve, CommandServer.handleSlackEvents.
  rewrite Hm, String.eqb_refl, Hdec.
  destruct (CommandServer.Type_ payload =? "url_verification"); [reflexivity|].
  destruct (CommandServer.forwards payload); [|reflexivity].
  destruct (json_Marshal _) as [jsonBody|]; [|reflexivity].
  unfold http_NewRequest.
  destruct (url_Parse CommandServer.eventsURL); [|reflexivity].
  unfold do_request, bind, emit, ret, log_Printf;
    cbn -[Header_Set String.append CommandServer.eventsURL].
  change (req_Header_Set _ _ (req_Header_Set _ _ _))
    with (CommandServer.outboundTo CommandServer.eventsURL accessToken jsonBody).
  destruct (client_Do _) as [resp|]; [|reflexivity].
  destruct (io_ReadAll (RespBody resp)); reflexivity.
Qed.

End MentionsOnly.

(** X12: the events handler of the second file forwards app mentions
    only: a downstream call implies an event callback of type app_mention
    (a direct message is answered with a bare 200 and no call), the call
    goes to the URL written in the source, and its THREAD_ID is thread_ts
    when that is non-empty and ts otherwise, for every channel. *)
Theorem mentions_only_forwarded `{W : World} `{F : CommandServer.FormWorld}
    (accessToken : string) (r : Request) (payload : CommandServer.SlackEventPayload) :
  Method r = MethodPost ->
  CommandServer.json_Decode (Body r) = Some payload ->
  let s := serve (CommandServer.handleSlackEvents accessToken r) in
  (forall req, In req (calls s) ->
     CommandServer.Type_ payload = "event_callback" /\
     CommandServer.EvType (CommandServer.Event payload) = "app_mention" /\
     URL req = CommandServer.eventsURL /\
     exists b jsonBody,
       json_Marshal b = Some jsonBody /\
       Body req = Reads jsonBody /\
       (CommandServer.ThreadTS (CommandServer.Event payload) <> "" ->
        THREAD_ID b = CommandServer.ThreadTS (CommandServer.Event payload)) /\
       (CommandServer.ThreadTS (CommandServer.Event payload) = "" ->
        THREAD_ID b = CommandServer.TS (CommandServer.Event payload))) /\
  (CommandServer.EvType (CommandServer.Event payload) <> "app_mention" ->
   CommandServer.Type_ payload <> "url_verification" ->
   s = bareOK []).
Proof.
  intros Hm Hdec s. subst s.
  rewrite (serve_mentions_decoded accessToken r payload Hm Hdec).
  destruct (CommandServer.Type_ payload =? "url_verification") eqn:Hty.
  { split; [intros req []|]. intros _ Hne. apply String.eqb_eq in Hty. contradiction. }
  unfold CommandServer.forwards.
  destruct (String.eqb_spec (CommandServer.Type_ payload) "event_callback") as [Hcb|Hcb];
    cbn [andb].
  2:{ split; [intros req [] | reflexivity]. }
  destruct (String.eqb_spec (CommandServer.EvType (CommandServer.Event payload))
              "app_mention") as [Hev|Hev].
  2:{ split; [intros req [] | reflexivity]. }
  split; [|intros Hne; contradiction].
  assert (Hthread :
    (CommandServer.ThreadTS (CommandServer.Event payload) <> "" ->
     THREAD_ID (CommandServer.apiBodyOf payload)
       = CommandServer.ThreadTS (CommandServer.Event payload)) /\
    (CommandServer.ThreadTS (CommandServer.Event payload) = "" ->
     THREAD_ID (CommandServer.apiBodyOf payload)
       = CommandServer.TS (CommandServer.Event payload))).
  { unfold CommandServer.apiBodyOf; cbn [THREAD_ID].
    destruct (String.eqb_spec (CommandServer.ThreadTS (CommandServer.Event payload)) "");
      split; intros; try reflexivity; congruence. }
  destruct (json_Marshal (CommandServer.apiBodyOf payload)) as [jsonBody|] eqn:Hj;
    [|intros req []].
  cbv zeta. destruct (url_Parse CommandServer.eventsURL); [|intros req []].
  assert (Hone : forall req,
            In req [CommandServer.outboundTo CommandServer.eventsURL accessToken jsonBody] ->
            CommandServer.Type_ payload = "event_callback" /\
            CommandServer.EvType (CommandServer.Event payload) = "app_mention" /\
            URL req = CommandServer.eventsURL /\
            exists b jsonBody',
              json_Marshal b = Some jsonBody' /\
              Body req = Reads jsonBody' /\
              (CommandServer.ThreadTS (CommandServer.Event payload) <> "" ->
               THREAD_ID b = CommandServer.ThreadTS (CommandServer.Event payload)) /\
              (CommandServer.ThreadTS (CommandServer.Event payload) = "" ->
               THREAD_ID b = CommandServer.TS (CommandServer.Event payload))).
  { intros req [<-|[]]. repeat (split; [first [assumption | reflexivity]|]).
    exists (CommandServer.apiBodyOf payload), jsonBody.
    split; [exact Hj|]. split; [reflexivity | exact Hthread]. }
  destruct (client_Do _) as [resp|]; [destruct (io_ReadAll (RespBody resp))|];
    exact Hone.
Qed.

Lemma mentions_only_forwarded_witness :
  let direct := serve (@CommandServer.handleSlackEvents demoWorld demoForms "secret"
                         (post (plainEnvelope directPayload))) in
  let mention := serve (@CommandServer.handleSlackEvents openWorld demoForms "secret"
                          (post (plainEnvelope threadMentionPayload))) in
  direct = bareOK [] /\
  calls mention =
    [CommandServer.outboundTo CommandServer.eventsURL "secret"
       (plainObject [("THREAD_ID", "90.5"); ("CHANNEL_ID", "C1");
                     ("USER_ID", "U2"); ("QUERY", "again")])].
Proof.
  split; [|reflexivity].
  destruct (@mentions_only_forwarded demoWorld demoForms "secret"
              (post (plainEnvelope directPayload)) (dropNewFields directPayload)
              eq_refl eq_refl) as [_ Hdirect].
  apply Hdirect; discriminate.
Defined.

(** X13: the two files agree on app mentions outside direct-message
    channels. On an envelope decoded by both, the condition of the second
    file implies the condition of [main.go], so every event the second
    file forwards is still forwarded, and unless the channel type is im
    the two build the same body. *)
Theorem main_go_extends_mentions_only (payload : SlackEventPayload) :
  (CommandServer.forwards (dropNewFields payload) = true -> forwards payload = true) /\
  (ChannelType (Event payload) <> "im" ->
   apiBodyOf payload = CommandServer.apiBodyOf (dropNewFields payload)) /\
  (ChannelType (Event payload) = "im" ->
   apiBodyOf payload
     = set_THREAD_ID "" (CommandServer.apiBodyOf (dropNewFields payload))) /\
  (forwards payload = true ->
   CommandServer.forwards (dropNewFields payload) = false ->
   ChannelType (Event payload) = "im" /\ EvType (Event payload) = "message" /\
   BotID (Event payload) = "").
Proof.
  unfold forwards, CommandServer.forwards, apiBodyOf, CommandServer.apiBodyOf,
    dropNewFields; cbn [CommandServer.Type_ CommandServer.Event CommandServer.EvType
      CommandServer.ThreadTS CommandServer.TS CommandServer.ChannelID
      CommandServer.User CommandServer.Text THREAD_ID].
  split; [|split; [|split]].
  - intros H. apply andb_true_iff in H as [-> ->]. reflexivity.
  - intros Hch. apply String.eqb_neq in Hch. rewrite Hch. reflexivity.
  - intros Hch. apply String.eqb_eq in Hch. rewrite Hch.
    destruct (ThreadTS (Event payload) =? ""); reflexivity.
  - destruct (Type_ payload =? "event_callback"); cbn [andb]; [|discriminate].
    destruct (EvType (Event payload) =? "app_mention"); cbn [orb]; [discriminate|].
    intros H _. apply andb_true_iff in H as [H Hb].
    apply andb_true_iff in H as [Hc He].
    apply String.eqb_eq in Hb, Hc, He. auto.
Qed.

(** X14: the second file's [main] ends in [log.Fatal] before serving
    exactly when the token is empty or listening fails; otherwise it
    serves the two routes /slack/command and /slack/events, both handlers
    closed over the token alone, on PORT or 8088. *)
Theorem command_server_main `{W : World} `{F : CommandServer.FormWorld} `{H : Host} :
  (fatal CommandServer.main = true <->
   os_Getenv "OBOT_ACCESS_TOKEN" = "" \/
   http_ListenAndServe (":" +:+ listenPort) <> None) /\
  (fatal CommandServer.main = false ->
   CommandServer.main =
     Serving (":" +:+ listenPort)
       [("/slack/command",
         CommandServer.handleSlackCommand (os_Getenv "OBOT_ACCESS_TOKEN"));
        ("/slack/events",
         CommandServer.handleSlackEvents (os_Getenv "OBOT_ACCESS_TOKEN"))]
       startLine).
Proof.
  unfold CommandServer.main, startLine, listenPort. cbv zeta.
  destruct (String.eqb_spec (os_Getenv "OBOT_ACCESS_TOKEN") "") as [Htok|Htok].
  { split; [split; [intros _; left; exact Htok | reflexivity] | discriminate]. }
  destruct (os_Getenv "PORT" =? ""); cbn [negb];
    destruct (http_ListenAndServe _) as [err|] eqn:Hl; cbn [fatal].
  all: split;
    [ split; [first [discriminate | intros _; right; discriminate]
             | first [reflexivity | intros [Hempty|Hne]; contradiction]]
    | first [discriminate | reflexivity] ].
Qed.

Example command_server_main_demo :
  exists stdout,
    @CommandServer.main demoWorld demoForms noURLHost =
      Serving ":8088"
        [("/slack/command", @CommandServer.handleSlackCommand demoWorld demoForms "secret");
         ("/slack/events", @CommandServer.handleSlackEvents demoWorld demoForms "secret")]
        stdout.
Proof. eexists. reflexivity. Qed.

(** A response that breaks off is left open: the call was made, the
    caller gets a 500, and nothing closes the body. *)
Example body_left_open_demo :
  let s := serve (@handleSlackEvents brokenWorld "secret" taskURL (post mentionData)) in
  length (calls s) = 1%nat /\ status s = 500 /\ ~ In BodyClose (trace s).
Proof.
  cbv zeta. split; [reflexivity|]. split; [reflexivity|].
  cbn. intros [H|[H|[]]]; discriminate H.
Qed.
